(** * Bagula Platform - ingestion API (app/main.py)

    A shallow embedding of the FastAPI application in [app/main.py]: the
    request schemas, the bearer-token dependency, the ingestion and read
    handlers and the startup/shutdown hooks, together with the properties
    of that boundary.

    The collaborators [SessionStore], [QueueManager] and [SessionAnalyzer]
    live in other modules of the repository ([app.database], [app.queue],
    [app.analyzer]).  They are taken as interfaces (type classes over an
    abstract state); every theorem holds for all their implementations. *)

From Stdlib Require Import String Ascii List ZArith Bool Lia DecimalString.
Import ListNotations.
Local Open Scope string_scope.
Local Open Scope list_scope.
Local Open Scope Z_scope.

(** ** Python values the schemas carry *)

(** A Python [float] is a binary64 value.  The application never computes
    on one, so it is kept as its 64-bit pattern. *)
Record PyFloat : Type := Float64 { float_bits : Z }.

(** What a JSON body decodes to; [dict] fields hold string-keyed objects. *)
#[local] Unset Elimination Schemes.
Inductive PyJSON : Type :=
| JNone
| JBool (b : bool)
| JInt (n : Z)
| JFloat (x : PyFloat)
| JStr (s : string)
| JList (items : list PyJSON)
| JDict (items : list (string * PyJSON)).
#[local] Set Elimination Schemes.

Definition PyDict : Type := list (string * PyJSON).

(** ** Data models (pydantic) *)

Module Turn.
Record t : Type := Build {
  turn_id : string;
  turn_number : Z;
  timestamp : Z;
  trigger : PyDict;
  agent_response : option PyDict;
  llm_calls : list PyDict;
  user_feedback : option PyDict
}.
End Turn.

Module SessionMetrics.
Record t : Type := Build {
  total_turns : Z;
  total_llm_calls : Z;
  total_tool_calls : Z;
  total_tokens : Z;
  total_cost : PyFloat;
  total_latency : Z;
  average_latency_per_turn : PyFloat;
  average_cost_per_turn : PyFloat;
  time_to_first_response : option Z;
  time_to_resolution : option Z
}.
End SessionMetrics.

Module AgentSession.
Record t : Type := Build {
  session_id : string;
  agent_name : string;
  user_id : option string;
  start_time : Z;
  end_time : option Z;
  initial_request : string;
  final_outcome : option PyDict;
  turns : list Turn.t;
  metrics : SessionMetrics.t;
  metadata : option PyDict;
  tags : option (list string)
}.
End AgentSession.

(** [sessions: List[AgentSession]] carries no length constraint: every
    list, the empty one included, validates. *)
Module IngestRequest.
Record t : Type := Build {
  sessions : list AgentSession.t;
  timestamp : Z
}.
End IngestRequest.

Module IngestResponse.
Record t : Type := Build {
  success : bool;
  sessions_received : Z;
  message : string
}.
End IngestResponse.

(** ** Exceptions *)

(** An exception object raised inside a collaborator: whether its class
    derives from [Exception] (as opposed to [BaseException] only, e.g.
    [asyncio.CancelledError]) and what [str(e)] gives. *)
Record PyExc : Type := Exc {
  is_Exception : bool;
  str : string
}.

(** What can leave a handler of this module. *)
Inductive exn : Type :=
| HTTPException (status_code : Z) (detail : string)
| Foreign (e : PyExc).

Inductive result (E A : Type) : Type :=
| Value (a : A)
| Throw (e : E).
Arguments Value {E A} a.
Arguments Throw {E A} e.

(** ** Strings *)

(** [s[n:]] *)
Fixpoint slice_from (n : nat) (s : string) : string :=
  match n, s with
  | O, _ => s
  | S _, EmptyString => EmptyString
  | S n', String _ s' => slice_from n' s'
  end.

(** [len(s)] as a Python int *)
Definition len_str (s : string) : Z := Z.of_nat (String.length s).

(** [s.startswith(p)] *)
Definition startswith (s p : string) : bool := String.prefix p s.

(** Python truth value of a string: [not s] holds of the empty string. *)
Definition str_truth (s : string) : bool :=
  match s with
  | EmptyString => false
  | String _ _ => true
  end.

(** ** Authentication *)

(** [verify_api_key(authorization: str = Header(...))].  The body runs on
    a header value; it reads nothing but that value. *)
Definition verify_api_key (authorization : string) : result exn string :=
  if negb (startswith authorization "Bearer ") then
    Throw (HTTPException 401 "Invalid authorization header")
  else
    let api_key := slice_from 7 authorization in
    if negb (str_truth api_key) || (len_str api_key <? 10) then
      Throw (HTTPException 401 "Invalid API key")
    else
      Value api_key.

(** ** Collaborators *)

(** What a call into a collaborator does: it returns a value or raises. *)
Inductive outcome (A : Type) : Type :=
| Returns (a : A)
| Raises (e : PyExc).
Arguments Returns {A} a.
Arguments Raises {A} e.

(** [app.database.SessionStore], as this module uses it.  [S] is the
    store's own state, [Session] the object [get_session] and
    [list_sessions] hand back, [session_truth] its Python truth value.
    A call may change the state whether it returns or raises. *)
Module SessionStore.
Class t (S Session : Type) : Type := Build {
  store_sessions : list AgentSession.t -> string -> S -> outcome unit * S;
  get_session : string -> S -> outcome (option Session) * S;
  list_sessions : string -> Z -> Z -> S -> outcome (list Session) * S;
  close : S -> outcome unit * S;
  session_truth : Session -> bool
}.
End SessionStore.

(** [app.queue.QueueManager], as this module uses it, over its state [Q]. *)
Module QueueManager.
Class t (Q : Type) : Type := Build {
  enqueue_session_analysis : string -> Q -> outcome unit * Q;
  stop_workers : Q -> outcome unit * Q
}.
End QueueManager.

(** ** Observable behaviour *)

(** The collaborator calls this module makes, with their arguments. *)
Inductive call : Type :=
| StoreSessions (sessions : list AgentSession.t) (api_key : string)
| GetSession (session_id : string)
| ListSessions (agent_name : string) (limit offset : Z)
| Close
| EnqueueSessionAnalysis (session_id : string)
| StartWorkers
| StopWorkers.

(** The four [print] lines of the lifecycle hooks. *)
Inductive log_line : Type :=
| Starting            (* "... Starting Bagula Platform..." *)
| Started             (* "... Bagula Platform started" *)
| ShuttingDown        (* "... Shutting down Bagula Platform..." *)
| ShutdownComplete.   (* "... Shutdown complete" *)

(** One entry per observable step, oldest first: an awaited call is
    entered, then it returns or raises; a coroutine is handed to
    [asyncio.create_task]; a line is printed; the server hands a request
    to the application. *)
Inductive event : Type :=
| Called (c : call)
| Returned (c : call)
| Raised (c : call) (e : PyExc)
| TaskCreated (c : call)
| Printed (l : log_line)
| RequestAccepted.

Section World.
Context {S Q : Type}.

(** The two module-level singletons and the log of what happened. *)
Record world : Type := World {
  session_store : S;
  queue_manager : Q;
  trace : list event
}.

Definition log (ev : event) (w : world) : world :=
  {| session_store := session_store w;
     queue_manager := queue_manager w;
     trace := trace w ++ [ev] |}.

(** *** The handler monad: state and exceptions of type [E] *)

Definition M (E A : Type) : Type := world -> result E A * world.

Definition ret {E A} (a : A) : M E A := fun w => (Value a, w).

Definition bind {E A B} (m : M E A) (k : A -> M E B) : M E B :=
  fun w =>
    match m w with
    | (Value a, w') => k a w'
    | (Throw e, w') => (Throw e, w')
    end.

Definition raise {E A} (e : E) : M E A := fun w => (Throw e, w).

(** [try: body except ... as e: handler(e)]; which exceptions [handler]
    lets through is its own business. *)
Definition try_except {E E' A} (body : M E A) (handler : E -> M E' A)
  : M E' A :=
  fun w =>
    match body w with
    | (Value a, w') => (Value a, w')
    | (Throw e, w') => handler e w'
    end.

(** [for x in xs: body(x)] *)
Fixpoint for_each {E A} (xs : list A) (body : A -> M E unit) : M E unit :=
  match xs with
  | [] => ret tt
  | x :: xs' => bind (body x) (fun _ => for_each xs' body)
  end.

(** [await session_store.method(...)] *)
Definition await_store {A} (c : call) (op : S -> outcome A * S)
  : M PyExc A :=
  fun w =>
    let w1 := log (Called c) w in
    match op (session_store w1) with
    | (Returns a, s') =>
        (Value a,
         log (Returned c)
           {| session_store := s'; queue_manager := queue_manager w1;
              trace := trace w1 |})
    | (Raises e, s') =>
        (Throw e,
         log (Raised c e)
           {| session_store := s'; queue_manager := queue_manager w1;
              trace := trace w1 |})
    end.

(** [await queue_manager.method(...)] *)
Definition await_queue {A} (c : call) (op : Q -> outcome A * Q)
  : M PyExc A :=
  fun w =>
    let w1 := log (Called c) w in
    match op (queue_manager w1) with
    | (Returns a, q') =>
        (Value a,
         log (Returned c)
           {| session_store := session_store w1; queue_manager := q';
              trace := trace w1 |})
    | (Raises e, q') =>
        (Throw e,
         log (Raised c e)
           {| session_store := session_store w1; queue_manager := q';
              trace := trace w1 |})
    end.

(** An exception of a collaborator that nothing catches leaves the
    handler as it is. *)
Definition uncaught {A} (m : M PyExc A) : M exn A :=
  try_except m (fun e => raise (Foreign e)).

Definition print (l : log_line) : M exn unit :=
  fun w => (Value tt, log (Printed l) w).

(** [asyncio.create_task(coro)]: the coroutine is scheduled, not run. *)
Definition create_task (c : call) : M exn unit :=
  fun w => (Value tt, log (TaskCreated c) w).
End World.
Arguments world : clear implicits.

Declare Scope handler_scope.
Delimit Scope handler_scope with handler.
Notation "x <- m ;; k" := (bind m (fun x => k))
  (at level 61, m at next level, right associativity) : handler_scope.
Notation "m ;; k" := (bind m (fun _ => k))
  (at level 61, right associativity) : handler_scope.

Local Open Scope handler_scope.

(** ** Requests *)

(** The JSON body of a POST once FastAPI has parsed it: it validates
    against the schema of the route, or it does not.  (A body that cannot
    be read as JSON is answered while it is read, before the dependencies
    are solved; such requests are left out.) *)
Inductive payload (A : Type) : Type :=
| Invalid
| Valid (a : A).
Arguments Invalid {A}.
Arguments Valid {A} a.

(** The three authenticated routes modelled here.  [authorization] is the
    [Authorization] header, [None] when the request carries none; [limit]
    and [offset] are the query parameters, [None] when omitted. *)
Inductive request : Type :=
| POST_sessions_ingest (authorization : option string)
    (body : payload IngestRequest.t)
| GET_session (authorization : option string) (session_id : string)
| GET_agent_sessions (authorization : option string) (agent_name : string)
    (limit offset : option Z).

(** ** Endpoints *)

Section Endpoints.
Context {S Session Q : Type}.
Context {store_ops : SessionStore.t S Session}.
Context {queue_ops : QueueManager.t Q}.

(** A coroutine of this module: it runs on the two singletons and returns
    or raises. *)
Definition handler (A : Type) : Type := @M S Q exn A.

(** [len(xs)] as a Python int *)
Definition len {A} (xs : list A) : Z := Z.of_nat (List.length xs).

(** [f"{n}"] of a non-negative int *)
Definition format_int (n : Z) : string :=
  NilZero.string_of_uint (N.to_uint (Z.to_N n)).

(** [not session] of what [get_session] returned: [None] is false, an
    object has the truth value its class gives it. *)
Definition truth (session : option Session) : bool :=
  match session with
  | None => false
  | Some s => SessionStore.session_truth s
  end.

(** [POST /v1/sessions/ingest] *)
Definition ingest_sessions (request : IngestRequest.t) (api_key : string)
  : handler IngestResponse.t :=
  try_except
    (let sessions := IngestRequest.sessions request in
     await_store (StoreSessions sessions api_key)
       (SessionStore.store_sessions sessions api_key) ;;
     for_each sessions (fun session =>
       await_queue (EnqueueSessionAnalysis (AgentSession.session_id session))
         (QueueManager.enqueue_session_analysis
            (AgentSession.session_id session))) ;;
     ret {| IngestResponse.success := true;
            IngestResponse.sessions_received := len sessions;
            IngestResponse.message :=
              ("Successfully received " ++ format_int (len sessions)
               ++ " session(s)")%string |})
    (* except Exception as e *)
    (fun e =>
       if is_Exception e then raise (HTTPException 500 (str e))
       else raise (Foreign e)).

(** [GET /v1/sessions/{session_id}] *)
Definition get_session (session_id : string) (api_key : string)
  : handler (option Session) :=
  session <- uncaught (await_store (GetSession session_id)
                         (SessionStore.get_session session_id)) ;;
  if negb (truth session) then
    raise (HTTPException 404 "Session not found")
  else
    ret session.

(** The dict [list_agent_sessions] returns. *)
Record SessionListing : Type := Listing {
  listing_agent_name : string;
  listing_sessions : list Session;
  listing_count : Z;
  listing_limit : Z;
  listing_offset : Z
}.

(** [GET /v1/agents/{agent_name}/sessions] *)
Definition list_agent_sessions (agent_name : string) (limit offset : Z)
  (api_key : string) : handler SessionListing :=
  sessions <- uncaught (await_store (ListSessions agent_name limit offset)
                          (SessionStore.list_sessions agent_name limit offset)) ;;
  ret {| listing_agent_name := agent_name;
         listing_sessions := sessions;
         listing_count := len sessions;
         listing_limit := limit;
         listing_offset := offset |}.

(** ** Background tasks *)

(** [@app.on_event("startup")] *)
Definition startup_event : handler unit :=
  print Starting ;;
  create_task StartWorkers ;;
  print Started.

(** [@app.on_event("shutdown")] *)
Definition shutdown_event : handler unit :=
  print ShuttingDown ;;
  uncaught (await_queue StopWorkers QueueManager.stop_workers) ;;
  uncaught (await_store Close SessionStore.close) ;;
  print ShutdownComplete.

(** ** Request pipeline (FastAPI) *)

Inductive content : Type :=
| Ingested (r : IngestResponse.t)
| OneSession (session : option Session)
| Sessions (l : SessionListing)
| Detail (detail : string)          (* {"detail": "..."} of an HTTPException *)
| ValidationErrors.                 (* {"detail": [...]} of a RequestValidationError *)

(** What a route of this module makes of a request: a response, or
    [Escaped e] when the exception [e] of a collaborator left the handler
    uncaught.  What the client gets in that case is decided outside the
    handlers, by the error middleware of the framework (500 "Internal
    Server Error" for an [Exception]; an [HTTPException] raised inside a
    collaborator is rendered with its own status); that layer is not part
    of [main.py] and is not modelled. *)
Inductive reply : Type :=
| Response (status_code : Z) (body : content)
| Escaped (e : PyExc).

Definition status_of (r : reply) : option Z :=
  match r with
  | Response s _ => Some s
  | Escaped _ => None
  end.

(** A parameter that fails validation: FastAPI answers 422 and calls
    neither the dependency nor the endpoint. *)
Definition unprocessable : reply := Response 422 ValidationErrors.

(** An endpoint runs; its return value is sent with status 200, an
    [HTTPException] with its own status and detail. *)
Definition run_endpoint {A} (wrap : A -> content) (h : handler A)
  : world S Q -> reply * world S Q :=
  fun w =>
    match h w with
    | (Value a, w') => (Response 200 (wrap a), w')
    | (Throw (HTTPException status_code detail), w') =>
        (Response status_code (Detail detail), w')
    | (Throw (Foreign e), w') => (Escaped e, w')
    end.

(** [api_key: str = Depends(verify_api_key)] with
    [authorization: str = Header(...)]: the header is required, so its
    absence is a validation error and [verify_api_key] is not called. *)
Definition depends_verify_api_key (authorization : option string)
  (endpoint : string -> world S Q -> reply * world S Q)
  : world S Q -> reply * world S Q :=
  fun w =>
    match authorization with
    | None => (unprocessable, w)
    | Some value =>
        match verify_api_key value with
        | Throw (HTTPException status_code detail) =>
            (Response status_code (Detail detail), w)
        | Throw (Foreign e) => (Escaped e, w)
        | Value api_key => endpoint api_key w
        end
    end.

(** [limit: int = 100], [offset: int = 0] *)
Definition default (d : Z) (q : option Z) : Z :=
  match q with
  | None => d
  | Some v => v
  end.

(** One request through the application.  The dependencies are solved
    first, then the body is validated. *)
Definition serve (r : request) : world S Q -> reply * world S Q :=
  match r with
  | POST_sessions_ingest authorization body =>
      match body with
      | Invalid =>
          depends_verify_api_key authorization
            (fun _ w => (unprocessable, w))
      | Valid req =>
          depends_verify_api_key authorization
            (fun api_key => run_endpoint Ingested (ingest_sessions req api_key))
      end
  | GET_session authorization session_id =>
      depends_verify_api_key authorization
        (fun api_key => run_endpoint OneSession (get_session session_id api_key))
  | GET_agent_sessions authorization agent_name limit offset =>
      depends_verify_api_key authorization
        (fun api_key =>
           run_endpoint Sessions
             (list_agent_sessions agent_name (default 100 limit)
                (default 0 offset) api_key))
  end.

(** ** The application and the server *)

(** What the server sends the application. *)
Inductive signal : Type :=
| Startup
| Http (r : request)
| Shutdown.

(** What [main.py] registers for each signal: the startup hook
    ([@app.on_event("startup")]), the handler of the route, the shutdown
    hook ([@app.on_event("shutdown")]).  The application reacts to what
    arrives; in which order the server sends the signals is not its
    business. *)
Definition on_signal (w : world S Q) (sig : signal) : world S Q :=
  match sig with
  | Startup => snd (startup_event w)
  | Http r => snd (serve r (log RequestAccepted w))
  | Shutdown => snd (shutdown_event w)
  end.

Definition run_signals (sigs : list signal) (w : world S Q) : world S Q :=
  fold_left on_signal sigs w.

(** The lifespan protocol, which the server keeps: no request is handed
    over before the startup hooks have been run.  [started] tells whether
    they have been already. *)
Fixpoint starts_before_requests (started : bool) (sigs : list signal) : bool :=
  match sigs with
  | [] => true
  | Startup :: rest => starts_before_requests true rest
  | Http _ :: rest => started && starts_before_requests started rest
  | Shutdown :: rest => starts_before_requests started rest
  end.

Definition startup_first (sigs : list signal) : Prop :=
  starts_before_requests false sigs = true.

(** ** Reading a trace *)

Definition is_store_call (c : call) : bool :=
  match c with
  | StoreSessions _ _ | GetSession _ | ListSessions _ _ _ | Close => true
  | _ => false
  end.

Definition is_enqueue (c : call) : bool :=
  match c with
  | EnqueueSessionAnalysis _ => true
  | _ => false
  end.

(** The calls entered, in order. *)
Fixpoint calls (t : list event) : list call :=
  match t with
  | [] => []
  | Called c :: t' => c :: calls t'
  | _ :: t' => calls t'
  end.

(** The calls that returned, in order. *)
Fixpoint returned (t : list event) : list call :=
  match t with
  | [] => []
  | Returned c :: t' => c :: returned t'
  | _ :: t' => returned t'
  end.

(** Every occurrence of [b] in [t] comes after an occurrence of [a]. *)
Definition precedes (a b : event) (t : list event) : Prop :=
  forall pre post, t = pre ++ b :: post -> In a pre.

(** The events of a batch whose calls all return: one [store_sessions]
    call for the whole list, then one enqueue per session. *)
Definition enqueue_events (session : AgentSession.t) : list event :=
  [Called (EnqueueSessionAnalysis (AgentSession.session_id session));
   Returned (EnqueueSessionAnalysis (AgentSession.session_id session))].

(** The queue after the given sessions were enqueued in order, when each
    call returned. *)
Fixpoint enqueued (sessions : list AgentSession.t) (q : Q) : option Q :=
  match sessions with
  | [] => Some q
  | session :: rest =>
      match QueueManager.enqueue_session_analysis
              (AgentSession.session_id session) q with
      | (Returns _, q') => enqueued rest q'
      | (Raises _, _) => None
      end
  end.

(** The events of [store_sessions] returning on the whole batch. *)
Definition stored_events (sessions : list AgentSession.t) (api_key : string)
  : list event :=
  [Called (StoreSessions sessions api_key);
   Returned (StoreSessions sessions api_key)].

(** The events of an enqueue call that raises. *)
Definition enqueue_failure (session : AgentSession.t) (e : PyExc)
  : list event :=
  [Called (EnqueueSessionAnalysis (AgentSession.session_id session));
   Raised (EnqueueSessionAnalysis (AgentSession.session_id session)) e].

(** The loop of [ingest_sessions]. *)
Definition enqueue_loop (sessions : list AgentSession.t) : @M S Q PyExc unit :=
  for_each sessions (fun session =>
    await_queue (EnqueueSessionAnalysis (AgentSession.session_id session))
      (QueueManager.enqueue_session_analysis
         (AgentSession.session_id session))).

(** What the endpoint answers when every call returns. *)
Definition received (sessions : list AgentSession.t) : IngestResponse.t :=
  {| IngestResponse.success := true;
     IngestResponse.sessions_received := len sessions;
     IngestResponse.message :=
       ("Successfully received " ++ format_int (len sessions)
        ++ " session(s)")%string |}.

(** [except Exception as e] *)
Definition except_Exception (e : PyExc) : exn :=
  if is_Exception e then HTTPException 500 (str e) else Foreign e.

Definition enqueue_call (session : AgentSession.t) : call :=
  EnqueueSessionAnalysis (AgentSession.session_id session).

(** Events of the kind a request handler leaves in the trace. *)
Definition request_event (ev : event) : Prop :=
  match ev with
  | Called c | Returned c | Raised c _ =>
      match c with
      | StoreSessions _ _ | GetSession _ | ListSessions _ _ _
      | EnqueueSessionAnalysis _ => True
      | _ => False
      end
  | _ => False
  end.

(** [f] only appends to the trace, and only events satisfying [P]. *)
Definition emits {X : Type} (P : event -> Prop)
  (f : world S Q -> X * world S Q) : Prop :=
  forall w, exists d, trace (snd (f w)) = trace w ++ d /\ Forall P d.

(** Every occurrence of [a] in [t] has [b] right after it. *)
Definition followed_by (a b : event) (t : list event) : Prop :=
  forall pre post, t = pre ++ a :: post -> exists post', post = b :: post'.

(** What holds of the trace after every signal; [started] tells whether
    the startup hook has been run. *)
Definition lifecycle_invariant (started : bool) (w : world S Q) : Prop :=
  let t := trace w in
  precedes (Called StopWorkers) (Called Close) t
  /\ precedes (Returned StopWorkers) (Called Close) t
  /\ followed_by (Returned StopWorkers) (Called Close) t
  /\ precedes (TaskCreated StartWorkers) RequestAccepted t
  /\ (started = true -> In (TaskCreated StartWorkers) t).

Definition enqueue_of (session : AgentSession.t) (q : Q) : outcome unit * Q :=
  QueueManager.enqueue_session_analysis (AgentSession.session_id session) q.

(** A collaborator raises [e] while [ingest_sessions] handles the batch in
    [w]: either the store does, or the store returns and the queue does at
    some session, the enqueue calls before it having returned. *)
Inductive raised_in_ingest (sessions : list AgentSession.t)
  (api_key : string) (w : world S Q) (e : PyExc) : Prop :=
| store_raised st' :
    SessionStore.store_sessions sessions api_key (session_store w)
      = (Raises e, st') ->
    raised_in_ingest sessions api_key w e
| enqueue_raised pre session post st' qk q' :
    sessions = pre ++ session :: post ->
    SessionStore.store_sessions sessions api_key (session_store w)
      = (Returns tt, st') ->
    enqueued pre (queue_manager w) = Some qk ->
    enqueue_of session qk = (Raises e, q') ->
    raised_in_ingest sessions api_key w e.

End Endpoints.
Arguments SessionListing : clear implicits.
Arguments content : clear implicits.
Arguments reply : clear implicits.
Arguments lifecycle_invariant {S Q} started w.

(** ** In-memory collaborators

    A store that keeps the sessions in a list and a queue that keeps the
    ids in a list, each with a capacity past which the call raises.  They
    instantiate the interfaces for the closed examples below. *)

Module InMemory.

Definition full (what : string) : PyExc :=
  {| is_Exception := true; str := (what ++ " is full")%string |}.

Definition store_sessions (capacity : nat) (sessions : list AgentSession.t)
  (api_key : string) (st : list AgentSession.t)
  : outcome unit * list AgentSession.t :=
  if (capacity <? List.length st + List.length sessions)%nat
  then (Raises (full "store"), st)
  else (Returns tt, st ++ sessions).

Definition get_session (session_id : string) (st : list AgentSession.t)
  : outcome (option AgentSession.t) * list AgentSession.t :=
  (Returns
     (find (fun s => String.eqb (AgentSession.session_id s) session_id) st),
   st).

Definition list_sessions (agent_name : string) (limit offset : Z)
  (st : list AgentSession.t)
  : outcome (list AgentSession.t) * list AgentSession.t :=
  (Returns
     (firstn (Z.to_nat limit)
        (skipn (Z.to_nat offset)
           (filter (fun s => String.eqb (AgentSession.agent_name s) agent_name)
              st))),
   st).

Definition close (st : list AgentSession.t)
  : outcome unit * list AgentSession.t :=
  (Returns tt, st).

(** A pydantic model defines neither [__bool__] nor [__len__]: every
    instance is true. *)
Definition store (capacity : nat)
  : SessionStore.t (list AgentSession.t) AgentSession.t :=
  {| SessionStore.store_sessions := store_sessions capacity;
     SessionStore.get_session := get_session;
     SessionStore.list_sessions := list_sessions;
     SessionStore.close := close;
     SessionStore.session_truth := fun _ => true |}.

Definition enqueue_session_analysis (capacity : nat) (session_id : string)
  (q : list string) : outcome unit * list string :=
  if (capacity <=? List.length q)%nat
  then (Raises (full "queue"), q)
  else (Returns tt, q ++ [session_id]).

Definition stop_workers (q : list string) : outcome unit * list string :=
  (Returns tt, q).

Definition queue (capacity : nat) : QueueManager.t (list string) :=
  {| QueueManager.enqueue_session_analysis := enqueue_session_analysis capacity;
     QueueManager.stop_workers := stop_workers |}.

Definition empty : world (list AgentSession.t) (list string) :=
  {| session_store := []; queue_manager := []; trace := [] |}.

Definition no_metrics : SessionMetrics.t :=
  {| SessionMetrics.total_turns := 0;
     SessionMetrics.total_llm_calls := 0;
     SessionMetrics.total_tool_calls := 0;
     SessionMetrics.total_tokens := 0;
     SessionMetrics.total_cost := Float64 0;
     SessionMetrics.total_latency := 0;
     SessionMetrics.average_latency_per_turn := Float64 0;
     SessionMetrics.average_cost_per_turn := Float64 0;
     SessionMetrics.time_to_first_response := None;
     SessionMetrics.time_to_resolution := None |}.

Definition session (session_id agent_name : string) : AgentSession.t :=
  {| AgentSession.session_id := session_id;
     AgentSession.agent_name := agent_name;
     AgentSession.user_id := None;
     AgentSession.start_time := 1700000000;
     AgentSession.end_time := None;
     AgentSession.initial_request := "hello";
     AgentSession.final_outcome := None;
     AgentSession.turns := [];
     AgentSession.metrics := no_metrics;
     AgentSession.metadata := None;
     AgentSession.tags := None |}.

Definition s1 : AgentSession.t := session "s-1" "support-bot".
Definition s2 : AgentSession.t := session "s-2" "support-bot".
Definition s3 : AgentSession.t := session "s-3" "billing-bot".

Definition batch (sessions : list AgentSession.t) : IngestRequest.t :=
  {| IngestRequest.sessions := sessions; IngestRequest.timestamp := 1700000100 |}.

Definition bearer : string := "Bearer 0123456789".
Definition key : string := "0123456789".

(** A store with room for ten sessions and one with room for a single
    session; a queue with room for ten ids and one with room for one. *)
Definition roomy : SessionStore.t (list AgentSession.t) AgentSession.t :=
  store 10.
Definition tight : SessionStore.t (list AgentSession.t) AgentSession.t :=
  store 1.
Definition long_queue : QueueManager.t (list string) := queue 10.
Definition short_queue : QueueManager.t (list string) := queue 1.

End InMemory.

(** ** Collaborators that fail

    A store and a queue whose calls raise a given exception, and a store
    that keeps its sessions as rows (dicts), for the closed examples of
    the failure paths. *)

Module Faulty.

(** [asyncio.CancelledError()]: not an [Exception], and [str] of it is
    empty. *)
Definition cancelled : PyExc := {| is_Exception := false; str := "" |}.

Definition refused : PyExc :=
  {| is_Exception := true; str := "connection refused" |}.

(** A queue manager none of whose calls gets through. *)
Definition queue_raising (e : PyExc) : QueueManager.t (list string) :=
  {| QueueManager.enqueue_session_analysis := fun _ q => (Raises e, q);
     QueueManager.stop_workers := fun q => (Raises e, q) |}.

(** A queue manager with room for [capacity] ids; past it the enqueue
    call is cancelled. *)
Definition cancelling_queue (capacity : nat) : QueueManager.t (list string) :=
  {| QueueManager.enqueue_session_analysis := fun session_id q =>
       if (capacity <=? List.length q)%nat
       then (Raises cancelled, q)
       else (Returns tt, q ++ [session_id]);
     QueueManager.stop_workers := fun q => (Returns tt, q) |}.

(** A store that persists, and whose reads and [close] raise. *)
Definition store_raising (e : PyExc)
  : SessionStore.t (list AgentSession.t) AgentSession.t :=
  {| SessionStore.store_sessions := InMemory.store_sessions 10;
     SessionStore.get_session := fun _ st => (Raises e, st);
     SessionStore.list_sessions := fun _ _ _ st => (Raises e, st);
     SessionStore.close := fun st => (Raises e, st);
     SessionStore.session_truth := fun _ => true |}.

(** The row kept for a session. *)
Definition row_of (s : AgentSession.t) : PyDict :=
  [("session_id", JStr (AgentSession.session_id s));
   ("agent_name", JStr (AgentSession.agent_name s))].

Definition has_str (k v : string) (row : PyDict) : bool :=
  existsb (fun kv => match kv with
                     | (k', JStr v') => String.eqb k k' && String.eqb v v'
                     | _ => false
                     end) row.

(** Python truth value of a dict: an empty dict is false. *)
Definition dict_truth (row : PyDict) : bool :=
  match row with
  | [] => false
  | _ :: _ => true
  end.

(** A store of rows by session id. *)
Definition row_store : SessionStore.t (list (string * PyDict)) PyDict :=
  {| SessionStore.store_sessions := fun sessions _ st =>
       (Returns tt,
        st ++ map (fun s => (AgentSession.session_id s, row_of s)) sessions);
     SessionStore.get_session := fun session_id st =>
       (Returns
          (option_map snd
             (find (fun r => String.eqb (fst r) session_id) st)),
        st);
     SessionStore.list_sessions := fun agent_name limit offset st =>
       (Returns
          (firstn (Z.to_nat limit)
             (skipn (Z.to_nat offset)
                (filter (has_str "agent_name" agent_name) (map snd st)))),
        st);
     SessionStore.close := fun st => (Returns tt, st);
     SessionStore.session_truth := dict_truth |}.

End Faulty.

(** ** The other endpoints: health, analysis, platform metrics *)

(** [app.analyzer.SessionAnalyzer], as this module uses it, over its
    state [A]; [Analysis] is the object its methods return. *)
Module SessionAnalyzer.
Class t (A Analysis : Type) : Type := Build {
  get_agent_metrics : string -> Z -> A -> outcome Analysis * A;
  detect_regressions : string -> Z -> A -> outcome Analysis * A;
  detect_anomalies : string -> Z -> A -> outcome Analysis * A
}.
End SessionAnalyzer.

(** The counting methods of the store and of the queue manager, which
    only [/metrics] calls. *)
Module Counters.
Class t (S Q : Type) : Type := Build {
  count_sessions : S -> outcome Z * S;
  count_active_agents : S -> outcome Z * S;
  get_queue_size : Q -> outcome Z * Q
}.
End Counters.

(** The calls these endpoints make, and what is seen of them. *)
Inductive probe : Type :=
| CountSessions
| GetQueueSize
| CountActiveAgents
| GetAgentMetrics (agent_name : string) (hours : Z)
| DetectRegressions (agent_name : string) (hours : Z)
| DetectAnomalies (agent_name : string) (hours : Z).

Inductive probe_event : Type :=
| Asked (p : probe)
| Answered (p : probe)
| Failed (p : probe) (e : PyExc).

(** The dict of [health_check]. *)
Record Health : Type := Build_Health {
  health_status : string;
  health_service : string;
  health_version : string;
  health_timestamp : string
}.

(** The dict of [get_platform_metrics]. *)
Record PlatformMetrics : Type := Build_PlatformMetrics {
  sessions_processed : Z;
  queue_size : Z;
  active_agents : Z
}.

(** The four routes with parameters and [/metrics].  [utcnow] is what
    [datetime.utcnow().isoformat()] gives when the handler runs; [hours]
    is the query parameter, [None] when omitted. *)
Inductive open_request : Type :=
| GET_health (utcnow : string)
| GET_agent_metrics (authorization : option string) (agent_name : string)
    (hours : option Z)
| GET_agent_regressions (authorization : option string) (agent_name : string)
    (hours : option Z)
| GET_agent_anomalies (authorization : option string) (agent_name : string)
    (hours : option Z)
| GET_metrics.

Definition open_authorization (r : open_request) : option (option string) :=
  match r with
  | GET_health _ | GET_metrics => None
  | GET_agent_metrics authorization _ _
  | GET_agent_regressions authorization _ _
  | GET_agent_anomalies authorization _ _ => Some authorization
  end.

Section Platform.
Context {S Q A Analysis : Type}.
Context {counters : Counters.t S Q}.
Context {analyzer_ops : SessionAnalyzer.t A Analysis}.

(** The three module-level singletons, and the log of the calls of these
    endpoints. *)
Record platform : Type := Platform {
  singletons : world S Q;
  session_analyzer : A;
  probes : list probe_event
}.

Definition note (ev : probe_event) (s : platform) : platform :=
  {| singletons := singletons s;
     session_analyzer := session_analyzer s;
     probes := probes s ++ [ev] |}.

Definition with_store (st : S) (s : platform) : platform :=
  {| singletons :=
       {| session_store := st;
          queue_manager := queue_manager (singletons s);
          trace := trace (singletons s) |};
     session_analyzer := session_analyzer s;
     probes := probes s |}.

Definition with_queue (q : Q) (s : platform) : platform :=
  {| singletons :=
       {| session_store := session_store (singletons s);
          queue_manager := q;
          trace := trace (singletons s) |};
     session_analyzer := session_analyzer s;
     probes := probes s |}.

Definition with_analyzer (a : A) (s : platform) : platform :=
  {| singletons := singletons s;
     session_analyzer := a;
     probes := probes s |}.

(** Coroutines over the three singletons. *)
Definition P (X : Type) : Type := platform -> result exn X * platform.

Definition answer {X} (x : X) : P X := fun s => (Value x, s).

Definition and_then {X Y} (m : P X) (k : X -> P Y) : P Y :=
  fun s =>
    match m s with
    | (Value x, s') => k x s'
    | (Throw e, s') => (Throw e, s')
    end.

(** [await collaborator.method(...)], on the singleton that [get] reads
    and [set] writes.  None of these endpoints has a [try]: what the call
    raises leaves the handler. *)
Definition ask {C X} (get : platform -> C) (set : C -> platform -> platform)
  (p : probe) (op : C -> outcome X * C) : P X :=
  fun s =>
    let s1 := note (Asked p) s in
    match op (get s1) with
    | (Returns x, c') => (Value x, note (Answered p) (set c' s1))
    | (Raises e, c') => (Throw (Foreign e), note (Failed p e) (set c' s1))
    end.

Definition ask_store {X} : probe -> (S -> outcome X * S) -> P X :=
  ask (fun s => session_store (singletons s)) with_store.

Definition ask_queue {X} : probe -> (Q -> outcome X * Q) -> P X :=
  ask (fun s => queue_manager (singletons s)) with_queue.

Definition ask_analyzer {X} : probe -> (A -> outcome X * A) -> P X :=
  ask session_analyzer with_analyzer.

(** [GET /health] *)
Definition health_check (utcnow : string) : P Health :=
  answer {| health_status := "healthy";
            health_service := "bagula-platform";
            health_version := "0.1.0";
            health_timestamp := utcnow |}.

(** [GET /v1/agents/{agent_name}/metrics] *)
Definition get_agent_metrics (agent_name : string) (hours : Z)
  (api_key : string) : P Analysis :=
  and_then
    (ask_analyzer (GetAgentMetrics agent_name hours)
       (SessionAnalyzer.get_agent_metrics agent_name hours))
    (fun metrics => answer metrics).

(** The dict of [get_agent_regressions] and of [get_agent_anomalies];
    the analysis is under the key "regressions" in the one, "anomalies"
    in the other. *)
Record Findings : Type := Build_Findings {
  findings_agent_name : string;
  time_window_hours : Z;
  findings : Analysis
}.

(** [GET /v1/agents/{agent_name}/regressions] *)
Definition get_agent_regressions (agent_name : string) (hours : Z)
  (api_key : string) : P Findings :=
  and_then
    (ask_analyzer (DetectRegressions agent_name hours)
       (SessionAnalyzer.detect_regressions agent_name hours))
    (fun regressions =>
       answer {| findings_agent_name := agent_name;
                 time_window_hours := hours;
                 findings := regressions |}).

(** [GET /v1/agents/{agent_name}/anomalies] *)
Definition get_agent_anomalies (agent_name : string) (hours : Z)
  (api_key : string) : P Findings :=
  and_then
    (ask_analyzer (DetectAnomalies agent_name hours)
       (SessionAnalyzer.detect_anomalies agent_name hours))
    (fun anomalies =>
       answer {| findings_agent_name := agent_name;
                 time_window_hours := hours;
                 findings := anomalies |}).

(** [GET /metrics]: the values of the dict are awaited in the order they
    are written. *)
Definition get_platform_metrics : P PlatformMetrics :=
  and_then (ask_store CountSessions Counters.count_sessions)
    (fun processed =>
  and_then (ask_queue GetQueueSize Counters.get_queue_size)
    (fun size =>
  and_then (ask_store CountActiveAgents Counters.count_active_agents)
    (fun agents =>
  answer {| sessions_processed := processed;
            queue_size := size;
            active_agents := agents |}))).

Inductive page : Type :=
| HealthPage (h : Health)
| AgentMetrics (metrics : Analysis)
| Regressions (f : Findings)
| Anomalies (f : Findings)
| Metrics (m : PlatformMetrics)
| PageDetail (detail : string)
| PageValidationErrors.

Inductive sent : Type :=
| Sent (status_code : Z) (body : page)
| Lost (e : PyExc).

Definition run_open {X} (wrap : X -> page) (h : P X)
  : platform -> sent * platform :=
  fun s =>
    match h s with
    | (Value x, s') => (Sent 200 (wrap x), s')
    | (Throw (HTTPException status_code detail), s') =>
        (Sent status_code (PageDetail detail), s')
    | (Throw (Foreign e), s') => (Lost e, s')
    end.

(** [api_key: str = Depends(verify_api_key)], on these routes. *)
Definition with_api_key (authorization : option string)
  (endpoint : string -> platform -> sent * platform)
  : platform -> sent * platform :=
  fun s =>
    match authorization with
    | None => (Sent 422 PageValidationErrors, s)
    | Some value =>
        match verify_api_key value with
        | Throw (HTTPException status_code detail) =>
            (Sent status_code (PageDetail detail), s)
        | Throw (Foreign e) => (Lost e, s)
        | Value api_key => endpoint api_key s
        end
    end.

(** One request to these routes; [hours: int = 24]. *)
Definition serve_open (r : open_request) : platform -> sent * platform :=
  match r with
  | GET_health utcnow => run_open HealthPage (health_check utcnow)
  | GET_agent_metrics authorization agent_name hours =>
      with_api_key authorization
        (fun api_key =>
           run_open AgentMetrics
             (get_agent_metrics agent_name (default 24 hours) api_key))
  | GET_agent_regressions authorization agent_name hours =>
      with_api_key authorization
        (fun api_key =>
           run_open Regressions
             (get_agent_regressions agent_name (default 24 hours) api_key))
  | GET_agent_anomalies authorization agent_name hours =>
      with_api_key authorization
        (fun api_key =>
           run_open Anomalies
             (get_agent_anomalies agent_name (default 24 hours) api_key))
  | GET_metrics => run_open Metrics get_platform_metrics
  end.

End Platform.
Arguments platform : clear implicits.
Arguments Findings : clear implicits.
Arguments page : clear implicits.
Arguments sent : clear implicits.

(** In-memory counters and a canned analyzer, for the closed examples. *)
Module Monitoring.

Definition distinct_agents (st : list AgentSession.t) : list string :=
  nodup string_dec (map AgentSession.agent_name st).

Definition counters : Counters.t (list AgentSession.t) (list string) :=
  {| Counters.count_sessions := fun st => (Returns (len st), st);
     Counters.count_active_agents := fun st =>
       (Returns (len (distinct_agents st)), st);
     Counters.get_queue_size := fun q => (Returns (len q), q) |}.

(** Counters of a queue manager that cannot be reached. *)
Definition counters_without_queue (e : PyExc)
  : Counters.t (list AgentSession.t) (list string) :=
  {| Counters.count_sessions := fun st => (Returns (len st), st);
     Counters.count_active_agents := fun st =>
       (Returns (len (distinct_agents st)), st);
     Counters.get_queue_size := fun q => (Raises e, q) |}.

(** Counters of a store that cannot be reached. *)
Definition counters_without_store (e : PyExc)
  : Counters.t (list AgentSession.t) (list string) :=
  {| Counters.count_sessions := fun st => (Raises e, st);
     Counters.count_active_agents := fun st => (Raises e, st);
     Counters.get_queue_size := fun q => (Returns (len q), q) |}.

Definition analysis (kind agent_name : string) (hours : Z) : PyDict :=
  [("kind", JStr kind); ("agent", JStr agent_name); ("hours", JInt hours)].

(** An analyzer that counts its calls and answers with what it was asked. *)
Definition analyzer : SessionAnalyzer.t nat PyDict :=
  {| SessionAnalyzer.get_agent_metrics := fun agent_name hours n =>
       (Returns (analysis "metrics" agent_name hours), Datatypes.S n);
     SessionAnalyzer.detect_regressions := fun agent_name hours n =>
       (Returns (analysis "regressions" agent_name hours), Datatypes.S n);
     SessionAnalyzer.detect_anomalies := fun agent_name hours n =>
       (Returns (analysis "anomalies" agent_name hours), Datatypes.S n) |}.

Definition start (st : list AgentSession.t) (q : list string)
  : platform (list AgentSession.t) (list string) nat :=
  {| singletons := {| session_store := st; queue_manager := q; trace := [] |};
     session_analyzer := O;
     probes := [] |}.

End Monitoring.

(** ** Further readings of requests and traces *)

(** The [Authorization] header of a request. *)
Definition authorization_of (r : request) : option string :=
  match r with
  | POST_sessions_ingest authorization _ => authorization
  | GET_session authorization _ => authorization
  | GET_agent_sessions authorization _ _ _ => authorization
  end.

(** The two read routes. *)
Definition is_read (r : request) : bool :=
  match r with
  | POST_sessions_ingest _ _ => false
  | GET_session _ _ | GET_agent_sessions _ _ _ _ => true
  end.

(** Events of calls into the store. *)
Definition store_event (ev : event) : Prop :=
  match ev with
  | Called c | Returned c | Raised c _ => is_store_call c = true
  | _ => False
  end.

(** * Properties *)

(** ** Strings and the bearer check *)

Lemma str_truth_false_len (s : string) : str_truth s = false -> len_str s = 0.
Proof. destruct s; simpl; [reflexivity | discriminate]. Qed.

Lemma slice_from_bearer (token : string) :
  slice_from 7 ("Bearer " ++ token)%string = token.
Proof. reflexivity. Qed.

Lemma startswith_bearer (token : string) :
  startswith ("Bearer " ++ token)%string "Bearer " = true.
Proof.
  unfold startswith. simpl.
  repeat (destruct (Ascii.ascii_dec _ _) as [_ | ne]; [ | now elim ne ]).
  now destruct token.
Qed.

(** The second test of [verify_api_key] is a test on the length alone. *)
Lemma short_key_test (api_key : string) :
  negb (str_truth api_key) || (len_str api_key <? 10) = (len_str api_key <? 10).
Proof.
  destruct (str_truth api_key) eqn:T; simpl; [reflexivity | ].
  rewrite (str_truth_false_len _ T). reflexivity.
Qed.

Lemma verify_api_key_eq (authorization : string) :
  verify_api_key authorization =
    if startswith authorization "Bearer " then
      if len_str (slice_from 7 authorization) <? 10
      then Throw (HTTPException 401 "Invalid API key")
      else Value (slice_from 7 authorization)
    else Throw (HTTPException 401 "Invalid authorization header").
Proof.
  unfold verify_api_key.
  destruct (startswith authorization "Bearer "); simpl; [ | reflexivity ].
  now rewrite short_key_test.
Qed.

(** C3. The auth check rejects a header value, with status 401, exactly
    when the value does not start with "Bearer " or the token after the
    prefix is shorter than 10; what is not rejected is accepted and yields
    that token.  A token of length 10 or more is accepted whatever it
    contains, and the request reaches the endpoint with the singletons
    untouched: the check consults neither store nor queue. *)
Theorem verify_api_key_rejects_iff :
  (forall authorization : string,
      ((exists detail,
           verify_api_key authorization = Throw (HTTPException 401 detail))
       <-> (startswith authorization "Bearer " = false
            \/ len_str (slice_from 7 authorization) < 10))
      /\ (forall e, verify_api_key authorization = Throw e ->
                    exists detail, e = HTTPException 401 detail)
      /\ (forall api_key, verify_api_key authorization = Value api_key ->
                          api_key = slice_from 7 authorization))
  /\ (forall token : string,
         verify_api_key ("Bearer " ++ token)%string =
           if len_str token <? 10
           then Throw (HTTPException 401 "Invalid API key")
           else Value token)
  /\ (forall (S Session Q : Type) (token : string)
             (endpoint : string -> world S Q -> reply Session * world S Q)
             (w : world S Q),
         depends_verify_api_key (Some ("Bearer " ++ token)%string) endpoint w =
           if len_str token <? 10
           then (Response 401 (Detail "Invalid API key"), w)
           else endpoint token w).
Proof.
  split; [ | split ].
  - intro authorization. rewrite verify_api_key_eq.
    destruct (startswith authorization "Bearer ") eqn:P.
    + destruct (len_str (slice_from 7 authorization) <? 10) eqn:L.
      * apply Z.ltb_lt in L. repeat split.
        -- intros _. now right.
        -- intros _. now eexists.
        -- intros e [= <-]. now eexists.
        -- discriminate.
      * apply Z.ltb_ge in L. repeat split.
        -- intros [detail H]. discriminate H.
        -- intros [H | H]; [discriminate H | lia].
        -- discriminate.
        -- now intros api_key [= <-].
    + repeat split.
      * intros _. now left.
      * intros _. now eexists.
      * intros e [= <-]. now eexists.
      * discriminate.
  - intro token. rewrite verify_api_key_eq, startswith_bearer, slice_from_bearer.
    reflexivity.
  - intros S Session Q token endpoint w. unfold depends_verify_api_key.
    rewrite verify_api_key_eq, startswith_bearer, slice_from_bearer.
    now destruct (len_str token <? 10).
Qed.

(** ** The ingestion handler *)

Section IngestFacts.
Context {S Session Q : Type}.
Context {store_ops : SessionStore.t S Session}.
Context {queue_ops : QueueManager.t Q}.

Lemma enqueue_loop_returns (sessions : list AgentSession.t) :
  forall (st : S) (q q' : Q) (t : list event),
    enqueued sessions q = Some q' ->
    enqueue_loop sessions (World st q t)
    = (Value tt, World st q' (t ++ flat_map enqueue_events sessions)).
Proof.
  induction sessions as [ | session rest IH ]; intros st q q' t H; simpl in *.
  - injection H as <-. unfold ret. now rewrite app_nil_r.
  - unfold enqueue_loop in *. simpl. unfold bind, await_queue at 1. simpl.
    destruct (QueueManager.enqueue_session_analysis _ q) as [[u | e] q1];
      [ | discriminate ].
    unfold log. simpl. rewrite (IH _ _ _ _ H).
    now rewrite <- !app_assoc.
Qed.

Lemma enqueue_loop_raises (pre : list AgentSession.t) :
  forall (session : AgentSession.t) (post : list AgentSession.t)
         (st : S) (q qk q' : Q) (t : list event) (e : PyExc),
    enqueued pre q = Some qk ->
    enqueue_of session qk = (Raises e, q') ->
    enqueue_loop (pre ++ session :: post) (World st q t)
    = (Throw e,
       World st q'
         (t ++ flat_map enqueue_events pre ++ enqueue_failure session e)).
Proof.
  unfold enqueue_of.
  induction pre as [ | s rest IH ]; intros session post st q qk q' t e H R;
    simpl in *.
  - injection H as <-. unfold enqueue_loop. simpl.
    unfold bind, await_queue at 1. simpl. rewrite R. unfold log. simpl.
    now rewrite <- !app_assoc.
  - unfold enqueue_loop in *. simpl. unfold bind, await_queue at 1. simpl.
    destruct (QueueManager.enqueue_session_analysis _ q) as [[u | e'] q1];
      [ | discriminate ].
    unfold log. simpl. rewrite (IH _ _ _ _ _ _ _ _ H R).
    now rewrite <- !app_assoc.
Qed.

(** Either every enqueue call returns, or there is a first one that
    raises. *)
Lemma enqueued_or_raises (sessions : list AgentSession.t) :
  forall q : Q,
    (exists q', enqueued sessions q = Some q')
    \/ (exists pre session post qk q' e,
           sessions = pre ++ session :: post
           /\ enqueued pre q = Some qk
           /\ enqueue_of session qk = (Raises e, q')).
Proof.
  induction sessions as [ | s rest IH ]; intro q; simpl.
  - left. now eexists.
  - destruct (QueueManager.enqueue_session_analysis (AgentSession.session_id s) q)
      as [[u | e] q1] eqn:E.
    + destruct (IH q1) as [[q' H] | (pre & x & post & qk & q' & e & -> & H & R)].
      * left. now exists q'.
      * right. exists (s :: pre), x, post, qk, q', e. simpl. rewrite E.
        now repeat split.
    + right. exists [], s, rest, q, q1, e. now repeat split.
Qed.

Lemma ingest_sessions_returns (request : IngestRequest.t) (api_key : string)
  (w : world S Q) (st' : S) (q' : Q) :
  SessionStore.store_sessions (IngestRequest.sessions request) api_key
    (session_store w) = (Returns tt, st') ->
  enqueued (IngestRequest.sessions request) (queue_manager w) = Some q' ->
  ingest_sessions request api_key w
  = (Value (received (IngestRequest.sessions request)),
     World st' q'
       (trace w ++ stored_events (IngestRequest.sessions request) api_key
          ++ flat_map enqueue_events (IngestRequest.sessions request))).
Proof.
  intros HS HQ. destruct w as [st q t]. simpl in *.
  unfold ingest_sessions, try_except, bind, await_store at 1. simpl.
  rewrite HS. unfold log. simpl.
  fold (enqueue_loop (S := S) (IngestRequest.sessions request)).
  rewrite (enqueue_loop_returns _ _ _ _ _ HQ). unfold ret, received.
  now rewrite <- !app_assoc.
Qed.

Lemma ingest_sessions_store_raises (request : IngestRequest.t)
  (api_key : string) (w : world S Q) (st' : S) (e : PyExc) :
  SessionStore.store_sessions (IngestRequest.sessions request) api_key
    (session_store w) = (Raises e, st') ->
  ingest_sessions request api_key w
  = (Throw (except_Exception e),
     World st' (queue_manager w)
       (trace w ++ [Called (StoreSessions (IngestRequest.sessions request) api_key);
                    Raised (StoreSessions (IngestRequest.sessions request) api_key) e])).
Proof.
  intros HS. destruct w as [st q t]. simpl in *.
  unfold ingest_sessions, try_except, bind, await_store at 1. simpl.
  rewrite HS. unfold log, except_Exception, raise. simpl.
  rewrite <- !app_assoc. now destruct (is_Exception e).
Qed.

Lemma ingest_sessions_enqueue_raises (request : IngestRequest.t)
  (api_key : string) (w : world S Q)
  (pre : list AgentSession.t) (session : AgentSession.t)
  (post : list AgentSession.t) (st' : S) (qk q' : Q) (e : PyExc) :
  IngestRequest.sessions request = pre ++ session :: post ->
  SessionStore.store_sessions (IngestRequest.sessions request) api_key
    (session_store w) = (Returns tt, st') ->
  enqueued pre (queue_manager w) = Some qk ->
  enqueue_of session qk = (Raises e, q') ->
  ingest_sessions request api_key w
  = (Throw (except_Exception e),
     World st' q'
       (trace w ++ stored_events (IngestRequest.sessions request) api_key
          ++ flat_map enqueue_events pre ++ enqueue_failure session e)).
Proof.
  intros HB HS HQ HR. destruct w as [st q t]. simpl in *.
  unfold ingest_sessions, try_except, bind, await_store at 1. simpl.
  rewrite HS. unfold log. simpl.
  fold (enqueue_loop (S := S) (IngestRequest.sessions request)).
  replace (enqueue_loop (S := S) (IngestRequest.sessions request))
    with (enqueue_loop (S := S) (pre ++ session :: post)) by now rewrite HB.
  rewrite (enqueue_loop_raises _ _ _ _ _ _ _ _ _ HQ HR).
  unfold except_Exception, raise. rewrite <- !app_assoc. simpl.
  now destruct (is_Exception e).
Qed.

(** The handler always comes back: with the answer of a batch whose
    calls all returned, or with what [except Exception] makes of the
    exception a collaborator raised. *)
Lemma ingest_sessions_outcome (request : IngestRequest.t) (api_key : string)
  (w : world S Q) :
  fst (ingest_sessions request api_key w)
    = Value (received (IngestRequest.sessions request))
  \/ (exists e,
         raised_in_ingest (IngestRequest.sessions request) api_key w e
         /\ fst (ingest_sessions request api_key w)
            = Throw (except_Exception e)).
Proof.
  destruct (SessionStore.store_sessions (IngestRequest.sessions request)
              api_key (session_store w)) as [[[] | e] st'] eqn:HS.
  - destruct (enqueued_or_raises (IngestRequest.sessions request)
                (queue_manager w))
      as [[q' HQ] | (pre & x & post & qk & q' & e & HB & HQ & HR)].
    + left. now rewrite (ingest_sessions_returns _ _ _ _ _ HS HQ).
    + right. exists e. split.
      * now apply (enqueue_raised _ _ _ _ pre x post st' qk q').
      * now rewrite (ingest_sessions_enqueue_raises _ _ _ _ _ _ _ _ _ _
                       HB HS HQ HR).
  - right. exists e. split.
    + now apply (store_raised _ _ _ _ st').
    + now rewrite (ingest_sessions_store_raises _ _ _ _ _ HS).
Qed.

End IngestFacts.

(** ** The ingestion route *)

Section IngestRoute.
Context {S Session Q : Type}.
Context {store_ops : SessionStore.t S Session}.
Context {queue_ops : QueueManager.t Q}.

Lemma calls_app (t1 t2 : list event) : calls (t1 ++ t2) = calls t1 ++ calls t2.
Proof.
  induction t1 as [ | ev t1 IH ]; simpl; [reflexivity | ].
  destruct ev; simpl; now rewrite IH.
Qed.

Lemma returned_app (t1 t2 : list event) :
  returned (t1 ++ t2) = returned t1 ++ returned t2.
Proof.
  induction t1 as [ | ev t1 IH ]; simpl; [reflexivity | ].
  destruct ev; simpl; now rewrite IH.
Qed.

Lemma calls_enqueue_events (sessions : list AgentSession.t) :
  calls (flat_map enqueue_events sessions) = map enqueue_call sessions.
Proof. induction sessions; simpl; now f_equal. Qed.

Lemma returned_enqueue_events (sessions : list AgentSession.t) :
  returned (flat_map enqueue_events sessions) = map enqueue_call sessions.
Proof. induction sessions; simpl; now f_equal. Qed.

Lemma filter_store_enqueue_calls (sessions : list AgentSession.t) :
  filter is_store_call (map enqueue_call sessions) = [].
Proof. induction sessions; simpl; auto. Qed.

Lemma filter_enqueue_enqueue_calls (sessions : list AgentSession.t) :
  filter is_enqueue (map enqueue_call sessions) = map enqueue_call sessions.
Proof. induction sessions; simpl; now f_equal. Qed.

(** With an accepted credential and a validated body, the route is the
    endpoint. *)
Lemma serve_ingest (authorization api_key : string)
  (request : IngestRequest.t) (w : world S Q) :
  verify_api_key authorization = Value api_key ->
  serve (POST_sessions_ingest (Some authorization) (Valid request)) w
  = run_endpoint Ingested (ingest_sessions request api_key) w.
Proof. intros H. simpl. unfold depends_verify_api_key. now rewrite H. Qed.

(** C1, amended.  A batch of two sessions with an accepted credential,
    when the store call and both enqueue calls return: the answer is 200
    with success = true and sessions_received = 2; the handler made
    exactly one [store_sessions] call, carrying both sessions, which
    returned before the first enqueue call, and exactly two enqueue calls,
    one per session id, in batch order. *)
Theorem ingest_two_sessions (authorization api_key : string)
  (request : IngestRequest.t) (a b : AgentSession.t) (w : world S Q)
  (st' : S) (q1 q2 : Q) :
  verify_api_key authorization = Value api_key ->
  IngestRequest.sessions request = [a; b] ->
  SessionStore.store_sessions [a; b] api_key (session_store w)
    = (Returns tt, st') ->
  enqueue_of a (queue_manager w) = (Returns tt, q1) ->
  enqueue_of b q1 = (Returns tt, q2) ->
  let delta :=
    [Called (StoreSessions [a; b] api_key);
     Returned (StoreSessions [a; b] api_key);
     Called (enqueue_call a); Returned (enqueue_call a);
     Called (enqueue_call b); Returned (enqueue_call b)] in
  serve (POST_sessions_ingest (Some authorization) (Valid request)) w
  = (Response 200
       (Ingested
          {| IngestResponse.success := true;
             IngestResponse.sessions_received := 2;
             IngestResponse.message := "Successfully received 2 session(s)" |}),
     World st' q2 (trace w ++ delta))
  /\ filter is_store_call (calls delta) = [StoreSessions [a; b] api_key]
  /\ filter is_enqueue (calls delta) = [enqueue_call a; enqueue_call b].
Proof.
  intros HA HB HS H1 H2 delta. split; [ | split; reflexivity ].
  rewrite (serve_ingest _ _ _ _ HA). unfold run_endpoint.
  rewrite (ingest_sessions_returns request api_key w st' q2).
  - rewrite HB. reflexivity.
  - now rewrite HB.
  - rewrite HB. simpl. unfold enqueue_of in *. rewrite H1, H2. reflexivity.
Qed.

(** C2, amended.  A request to the ingestion route that carries no
    Authorization header is answered 422, whether its body validates or
    not: the required header fails validation, [verify_api_key] does not
    run, and neither the store nor the queue is called. *)
Theorem ingest_without_authorization (body : payload IngestRequest.t)
  (w : world S Q) :
  serve (POST_sessions_ingest None body) w = (Response 422 ValidationErrors, w).
Proof. now destruct body. Qed.

(** C4, amended.  An authenticated POST to the ingestion route during
    which the store or the queue raises an exception [e] that is an
    instance of [Exception] is answered 500 with detail [str(e)].  (The
    clause is [except Exception]: what is not an [Exception] is not
    caught.) *)
Theorem ingest_exception_is_500 (authorization api_key : string)
  (request : IngestRequest.t) (w : world S Q) (e : PyExc) :
  verify_api_key authorization = Value api_key ->
  raised_in_ingest (IngestRequest.sessions request) api_key w e ->
  is_Exception e = true ->
  fst (serve (POST_sessions_ingest (Some authorization) (Valid request)) w)
  = Response 500 (Detail (str e)).
Proof.
  intros HA HR HE. rewrite (serve_ingest _ _ _ _ HA). unfold run_endpoint.
  destruct HR as [st' HS | pre session post st' qk q' HB HS HQ HF].
  - rewrite (ingest_sessions_store_raises _ _ _ _ _ HS).
    unfold except_Exception. now rewrite HE.
  - rewrite (ingest_sessions_enqueue_raises _ _ _ _ _ _ _ _ _ _ HB HS HQ HF).
    unfold except_Exception. now rewrite HE.
Qed.

(** C5, amended.  The store call returns and the enqueue call for
    [session], the k-th session of the batch ([pre] holds the k-1 before
    it), raises [e].  The store is left as [store_sessions] left it and is
    not called again (no rollback); the enqueue calls for the sessions of
    [pre] have returned, in order, and the queue holds their effect; the
    call for [session] is the last call made: there is none for the
    sessions of [post].  The request fails with 500 and detail [str(e)]
    when [e] is an [Exception]; otherwise [e] leaves the handler
    uncaught. *)
Theorem ingest_enqueue_failure_keeps_store (authorization api_key : string)
  (request : IngestRequest.t) (w : world S Q)
  (pre : list AgentSession.t) (session : AgentSession.t)
  (post : list AgentSession.t) (st' : S) (qk q' : Q) (e : PyExc) :
  verify_api_key authorization = Value api_key ->
  IngestRequest.sessions request = pre ++ session :: post ->
  SessionStore.store_sessions (IngestRequest.sessions request) api_key
    (session_store w) = (Returns tt, st') ->
  enqueued pre (queue_manager w) = Some qk ->
  enqueue_of session qk = (Raises e, q') ->
  let delta :=
    stored_events (IngestRequest.sessions request) api_key
      ++ flat_map enqueue_events pre ++ enqueue_failure session e in
  serve (POST_sessions_ingest (Some authorization) (Valid request)) w
  = ((if is_Exception e then Response 500 (Detail (str e)) else Escaped e),
     World st' q' (trace w ++ delta))
  /\ filter is_store_call (calls delta)
     = [StoreSessions (IngestRequest.sessions request) api_key]
  /\ returned delta
     = StoreSessions (IngestRequest.sessions request) api_key
         :: map enqueue_call pre
  /\ filter is_enqueue (calls delta) = map enqueue_call (pre ++ [session]).
Proof.
  intros HA HB HS HQ HF delta. split; [ | split; [ | split ] ].
  - rewrite (serve_ingest _ _ _ _ HA). unfold run_endpoint.
    rewrite (ingest_sessions_enqueue_raises _ _ _ _ _ _ _ _ _ _ HB HS HQ HF).
    unfold except_Exception. now destruct (is_Exception e).
  - unfold delta. rewrite !calls_app, calls_enqueue_events. simpl.
    now rewrite filter_app, filter_store_enqueue_calls.
  - unfold delta. rewrite !returned_app, returned_enqueue_events. simpl.
    now rewrite app_nil_r.
  - unfold delta. rewrite !calls_app, calls_enqueue_events. simpl.
    now rewrite filter_app, filter_enqueue_enqueue_calls, map_app.
Qed.

(** C7, amended.  The ingestion route accepts the empty list of sessions
    as a batch: with an accepted credential it makes one [store_sessions]
    call on the empty list and no enqueue call, and when that call returns
    it answers 200 with success = true and sessions_received = 0. *)
Theorem ingest_empty_batch (authorization api_key : string)
  (request : IngestRequest.t) (w : world S Q) (st' : S) :
  verify_api_key authorization = Value api_key ->
  IngestRequest.sessions request = [] ->
  SessionStore.store_sessions [] api_key (session_store w)
    = (Returns tt, st') ->
  serve (POST_sessions_ingest (Some authorization) (Valid request)) w
  = (Response 200
       (Ingested
          {| IngestResponse.success := true;
             IngestResponse.sessions_received := 0;
             IngestResponse.message := "Successfully received 0 session(s)" |}),
     World st' (queue_manager w)
       (trace w ++ [Called (StoreSessions [] api_key);
                    Returned (StoreSessions [] api_key)])).
Proof.
  intros HA HB HS. rewrite (serve_ingest _ _ _ _ HA). unfold run_endpoint.
  rewrite (ingest_sessions_returns request api_key w st' (queue_manager w)).
  - rewrite HB. reflexivity.
  - now rewrite HB.
  - now rewrite HB.
Qed.

(** C10.  When [store_sessions] raises, the handler makes no enqueue
    call: the [store_sessions] call is the only call of the request and
    the queue manager is left as it was. *)
Theorem ingest_store_failure_skips_queue (authorization api_key : string)
  (request : IngestRequest.t) (w : world S Q) (st' : S) (e : PyExc) :
  verify_api_key authorization = Value api_key ->
  SessionStore.store_sessions (IngestRequest.sessions request) api_key
    (session_store w) = (Raises e, st') ->
  let delta :=
    [Called (StoreSessions (IngestRequest.sessions request) api_key);
     Raised (StoreSessions (IngestRequest.sessions request) api_key) e] in
  snd (serve (POST_sessions_ingest (Some authorization) (Valid request)) w)
  = World st' (queue_manager w) (trace w ++ delta)
  /\ filter is_enqueue (calls delta) = []
  /\ queue_manager
       (snd (serve (POST_sessions_ingest (Some authorization) (Valid request)) w))
     = queue_manager w.
Proof.
  intros HA HS delta.
  rewrite (serve_ingest _ _ _ _ HA). unfold run_endpoint.
  rewrite (ingest_sessions_store_raises _ _ _ _ _ HS).
  unfold except_Exception. now destruct (is_Exception e).
Qed.

End IngestRoute.

(** ** The read routes *)

Section ReadRoutes.
Context {S Session Q : Type}.
Context {store_ops : SessionStore.t S Session}.
Context {queue_ops : QueueManager.t Q}.

Lemma serve_get_session (authorization api_key session_id : string)
  (w : world S Q) :
  verify_api_key authorization = Value api_key ->
  serve (GET_session (Some authorization) session_id) w
  = run_endpoint OneSession (get_session session_id api_key) w.
Proof. intros H. simpl. unfold depends_verify_api_key. now rewrite H. Qed.

Lemma get_session_after_store (session_id api_key : string) (w : world S Q)
  (found : option Session) (st' : S) :
  SessionStore.get_session session_id (session_store w) = (Returns found, st') ->
  get_session session_id api_key w
  = ((if negb (truth found)
      then Throw (HTTPException 404 "Session not found")
      else Value found),
     World st' (queue_manager w)
       (trace w ++ [Called (GetSession session_id);
                    Returned (GetSession session_id)])).
Proof.
  intros H. destruct w as [st q t]. simpl in *.
  unfold get_session, bind, uncaught, try_except, await_store. simpl.
  rewrite H. unfold log, raise, ret. simpl. rewrite <- !app_assoc. simpl.
  now destruct (truth found).
Qed.

(** C6, amended.  An authenticated [GET /v1/sessions/{session_id}] for
    which the store's [get_session] returns: the answer is 404 "Session
    not found" exactly when the store returned [None] or an object that is
    false in Python (the test is [if not session]); otherwise it is 200
    with the object the store returned, as returned. *)
Theorem get_session_404_iff (authorization api_key session_id : string)
  (w : world S Q) (found : option Session) (st' : S) :
  verify_api_key authorization = Value api_key ->
  SessionStore.get_session session_id (session_store w) = (Returns found, st') ->
  let r := fst (serve (GET_session (Some authorization) session_id) w) in
  (status_of r = Some 404
   <-> found = None
       \/ exists session, found = Some session
                          /\ SessionStore.session_truth session = false)
  /\ (status_of r = Some 404 -> r = Response 404 (Detail "Session not found"))
  /\ (forall session, found = Some session ->
                      SessionStore.session_truth session = true ->
                      r = Response 200 (OneSession (Some session))).
Proof.
  intros HA HG r. unfold r.
  rewrite (serve_get_session _ _ _ _ HA). unfold run_endpoint.
  rewrite (get_session_after_store _ _ _ _ _ HG).
  destruct found as [session | ]; simpl.
  - destruct (SessionStore.session_truth session) eqn:T; simpl.
    + split; [ split | split ].
      * discriminate.
      * intros [H | (s & [= <-] & H)]; [discriminate H | ].
        rewrite T in H. discriminate H.
      * discriminate.
      * now intros s [= <-] _.
    + split; [ split | split ].
      * intros _. right. now exists session.
      * reflexivity.
      * reflexivity.
      * intros s [= <-] H. rewrite T in H. discriminate H.
  - split; [ split | split ].
    + intros _. now left.
    + reflexivity.
    + reflexivity.
    + discriminate.
Qed.

Lemma serve_list_agent_sessions (authorization api_key agent_name : string)
  (limit offset : option Z) (w : world S Q) :
  verify_api_key authorization = Value api_key ->
  serve (GET_agent_sessions (Some authorization) agent_name limit offset) w
  = run_endpoint Sessions
      (list_agent_sessions agent_name (default 100 limit) (default 0 offset)
         api_key) w.
Proof. intros H. simpl. unfold depends_verify_api_key. now rewrite H. Qed.

(** C8.  An authenticated [GET /v1/agents/{agent_name}/sessions]: an
    omitted limit is 100 and an omitted offset is 0; a supplied limit or
    offset, whatever its value, is the one the store's [list_sessions] is
    called with; when that call returns a list, the answer is 200 with the
    agent name asked for, that list, its length as count, and the limit
    and offset the store was called with. *)
Theorem list_agent_sessions_passes_through
  (authorization api_key agent_name : string) (limit offset : option Z)
  (w : world S Q) (sessions : list Session) (st' : S) :
  verify_api_key authorization = Value api_key ->
  let lim := match limit with None => 100 | Some n => n end in
  let off := match offset with None => 0 | Some n => n end in
  SessionStore.list_sessions agent_name lim off (session_store w)
    = (Returns sessions, st') ->
  serve (GET_agent_sessions (Some authorization) agent_name limit offset) w
  = (Response 200
       (Sessions
          {| listing_agent_name := agent_name;
             listing_sessions := sessions;
             listing_count := Z.of_nat (List.length sessions);
             listing_limit := lim;
             listing_offset := off |}),
     World st' (queue_manager w)
       (trace w ++ [Called (ListSessions agent_name lim off);
                    Returned (ListSessions agent_name lim off)])).
Proof.
  intros HA lim off HL.
  rewrite (serve_list_agent_sessions _ _ _ _ _ _ HA). unfold run_endpoint.
  destruct w as [st q t]. simpl in *.
  unfold list_agent_sessions, bind, uncaught, try_except, await_store. simpl.
  fold lim off. unfold default. fold lim off. rewrite HL.
  unfold log, ret. simpl. now rewrite <- !app_assoc.
Qed.

End ReadRoutes.

(** ** The lifecycle hooks *)

Section Lifecycle.
Context {S Session Q : Type}.
Context {store_ops : SessionStore.t S Session}.
Context {queue_ops : QueueManager.t Q}.

Lemma emits_ret (P : event -> Prop) {E A} (a : A) : emits P (@ret S Q E A a).
Proof. intro w. exists []. simpl. now rewrite app_nil_r. Qed.

Lemma emits_raise (P : event -> Prop) {E A} (e : E) :
  emits P (@raise S Q E A e).
Proof. intro w. exists []. simpl. now rewrite app_nil_r. Qed.

Lemma emits_bind (P : event -> Prop) {E A B} (m : @M S Q E A)
  (k : A -> @M S Q E B) :
  emits P m -> (forall a, emits P (k a)) -> emits P (bind m k).
Proof.
  intros Hm Hk w. unfold bind. destruct (Hm w) as (d1 & E1 & F1).
  destruct (m w) as [[a | e] w1]; simpl in *.
  - destruct (Hk a w1) as (d2 & E2 & F2). exists (d1 ++ d2). split.
    + now rewrite E2, E1, app_assoc.
    + now apply Forall_app.
  - now exists d1.
Qed.

Lemma emits_try_except (P : event -> Prop) {E E' A} (m : @M S Q E A)
  (h : E -> @M S Q E' A) :
  emits P m -> (forall e, emits P (h e)) -> emits P (try_except m h).
Proof.
  intros Hm Hh w. unfold try_except. destruct (Hm w) as (d1 & E1 & F1).
  destruct (m w) as [[a | e] w1]; simpl in *.
  - now exists d1.
  - destruct (Hh e w1) as (d2 & E2 & F2). exists (d1 ++ d2). split.
    + now rewrite E2, E1, app_assoc.
    + now apply Forall_app.
Qed.

Lemma emits_for_each (P : event -> Prop) {E A} (xs : list A)
  (body : A -> @M S Q E unit) :
  (forall x, emits P (body x)) -> emits P (for_each xs body).
Proof.
  intro Hb. induction xs as [ | x xs IH ]; simpl.
  - apply emits_ret.
  - apply emits_bind; auto.
Qed.

Lemma emits_await_store (P : event -> Prop) {A} (c : call)
  (op : S -> outcome A * S) :
  P (Called c) -> P (Returned c) -> (forall e, P (Raised c e)) ->
  emits P (await_store (Q := Q) c op).
Proof.
  intros PC PR PE w. unfold await_store. simpl.
  destruct (op (session_store w)) as [[a | e] s']; simpl.
  - exists [Called c; Returned c]. rewrite <- app_assoc. auto.
  - exists [Called c; Raised c e]. rewrite <- app_assoc. auto.
Qed.

Lemma emits_await_queue (P : event -> Prop) {A} (c : call)
  (op : Q -> outcome A * Q) :
  P (Called c) -> P (Returned c) -> (forall e, P (Raised c e)) ->
  emits P (await_queue (S := S) c op).
Proof.
  intros PC PR PE w. unfold await_queue. simpl.
  destruct (op (queue_manager w)) as [[a | e] q']; simpl.
  - exists [Called c; Returned c]. rewrite <- app_assoc. auto.
  - exists [Called c; Raised c e]. rewrite <- app_assoc. auto.
Qed.

Lemma emits_run_endpoint (P : event -> Prop) {A} (wrap : A -> content Session)
  (h : @handler S Q A) :
  emits P h -> emits P (run_endpoint (Session := Session) wrap h).
Proof.
  intros Hh w. unfold run_endpoint. destruct (Hh w) as (d & E & F).
  destruct (h w) as [[a | [status detail | e]] w1]; simpl in *; now exists d.
Qed.

Lemma emits_depends (P : event -> Prop) (authorization : option string)
  (endpoint : string -> world S Q -> reply Session * world S Q) :
  (forall api_key, emits P (endpoint api_key)) ->
  emits P (depends_verify_api_key authorization endpoint).
Proof.
  intros He w. unfold depends_verify_api_key.
  destruct authorization as [value | ].
  - destruct (verify_api_key value) as [api_key | [status detail | e]].
    + apply He.
    + exists []. simpl. now rewrite app_nil_r.
    + exists []. simpl. now rewrite app_nil_r.
  - exists []. simpl. now rewrite app_nil_r.
Qed.

Lemma emits_nothing (P : event -> Prop) {X} (x : X) :
  emits P (fun w : world S Q => (x, w)).
Proof. intro w. exists []. simpl. now rewrite app_nil_r. Qed.

(** A request leaves only events of its own handler in the trace. *)
Lemma serve_emits (r : request) : emits request_event (serve r).
Proof.
  destruct r as [authorization [ | request] | authorization session_id
                | authorization agent_name limit offset]; simpl.
  - apply emits_depends. intro. apply emits_nothing.
  - apply emits_depends. intro api_key. apply emits_run_endpoint.
    unfold ingest_sessions. apply emits_try_except.
    + apply emits_bind.
      * apply emits_await_store; simpl; auto.
      * intros _. apply emits_bind.
        -- apply emits_for_each. intro x.
           apply emits_await_queue; simpl; auto.
        -- intros _. apply emits_ret.
    + intro e. destruct (is_Exception e); apply emits_raise.
  - apply emits_depends. intro api_key. apply emits_run_endpoint.
    unfold get_session. apply emits_bind.
    + apply emits_try_except.
      * apply emits_await_store; simpl; auto.
      * intro e. apply emits_raise.
    + intro a. destruct (negb (truth a)); [apply emits_raise | apply emits_ret].
  - apply emits_depends. intro api_key. apply emits_run_endpoint.
    unfold list_agent_sessions. apply emits_bind.
    + apply emits_try_except.
      * apply emits_await_store; simpl; auto.
      * intro e. apply emits_raise.
    + intro a. apply emits_ret.
Qed.

Lemma precedes_nil (a b : event) : precedes a b [].
Proof. intros [ | x pre] post H; discriminate H. Qed.

Lemma precedes_app (a b : event) (t d : list event) :
  precedes a b t -> precedes a b d -> precedes a b (t ++ d).
Proof.
  intros Ht Hd pre post H.
  apply app_eq_app in H. destruct H as (l & [[-> H] | [-> H]]).
  - destruct l as [ | x l ]; simpl in H.
    + elim (Hd [] post (eq_sym H)).
    + injection H as <- ->. apply (Ht pre l eq_refl).
  - apply in_or_app. right. now apply (Hd l post).
Qed.

Lemma precedes_after (a b : event) (t d : list event) :
  precedes a b t -> In a t -> precedes a b (t ++ d).
Proof.
  intros Ht Ha pre post H.
  apply app_eq_app in H. destruct H as (l & [[-> H] | [-> H]]).
  - destruct l as [ | x l ]; simpl in H.
    + now rewrite app_nil_r in Ha.
    + injection H as <- ->. apply (Ht pre l eq_refl).
  - apply in_or_app. now left.
Qed.

Lemma precedes_absent (a b : event) (d : list event) :
  ~ In b d -> precedes a b d.
Proof. intros H pre post ->. elim H. apply in_elt. Qed.

(** On an explicit trace, [precedes] is settled position by position. *)
Ltac explicit_precedes :=
  let pre := fresh "pre" in
  let post := fresh "post" in
  let H := fresh "H" in
  intros pre post H;
  repeat (destruct pre as [ | ? pre ]; simpl in H;
          [ first [ discriminate H | solve [ simpl; auto 10 ] ]
          | first [ discriminate H | injection H as ? H; subst ] ]).

Lemma startup_event_trace (w : world S Q) :
  startup_event w
  = (Value tt,
     World (session_store w) (queue_manager w)
       (trace w ++ [Printed Starting; TaskCreated StartWorkers;
                    Printed Started])).
Proof.
  destruct w as [st q t]. unfold startup_event, bind, print, create_task, log.
  simpl. now rewrite <- !app_assoc.
Qed.

Lemma followed_by_absent (a b : event) (d : list event) :
  ~ In a d -> followed_by a b d.
Proof. intros H pre post ->. elim H. apply in_elt. Qed.

Lemma followed_by_app (a b : event) (t d : list event) :
  followed_by a b t -> followed_by a b d -> followed_by a b (t ++ d).
Proof.
  intros Ht Hd pre post H.
  apply app_eq_app in H. destruct H as (l & [[-> H] | [-> H]]).
  - destruct l as [ | x l ]; simpl in H.
    + apply (Hd [] post). now symmetry.
    + injection H as <- ->. destruct (Ht pre l eq_refl) as (post' & ->).
      now exists (post' ++ d).
  - now apply (Hd l post).
Qed.

(** On an explicit trace, [followed_by] is settled position by position. *)
Ltac explicit_followed :=
  let pre := fresh "pre" in
  let post := fresh "post" in
  let H := fresh "H" in
  intros pre post H;
  repeat (destruct pre as [ | ? pre ]; simpl in H;
          [ first [ discriminate H
                  | injection H; intros; subst; eexists; reflexivity ]
          | first [ discriminate H | injection H as ? H; subst ] ]).

(** The three ways [shutdown_event] can go. *)
Lemma shutdown_event_eq (w : world S Q) :
  shutdown_event w
  = match QueueManager.stop_workers (queue_manager w) with
    | (Raises e, q') =>
        (Throw (Foreign e),
         World (session_store w) q'
           (trace w ++ [Printed ShuttingDown; Called StopWorkers;
                        Raised StopWorkers e]))
    | (Returns _, q') =>
        match SessionStore.close (session_store w) with
        | (Returns _, st') =>
            (Value tt,
             World st' q'
               (trace w ++ [Printed ShuttingDown;
                            Called StopWorkers; Returned StopWorkers;
                            Called Close; Returned Close;
                            Printed ShutdownComplete]))
        | (Raises e, st') =>
            (Throw (Foreign e),
             World st' q'
               (trace w ++ [Printed ShuttingDown;
                            Called StopWorkers; Returned StopWorkers;
                            Called Close; Raised Close e]))
        end
    end.
Proof.
  destruct w as [st q t].
  unfold shutdown_event, bind, print, uncaught, try_except, await_queue,
    await_store, raise, log. simpl.
  destruct (QueueManager.stop_workers q) as [[u | e] q1]; simpl;
    [ destruct (SessionStore.close st) as [[u' | e'] st1]; simpl | ];
    now rewrite <- !app_assoc.
Qed.

Lemma shutdown_event_trace (w : world S Q) :
  exists d,
    trace (snd (shutdown_event w)) = trace w ++ d
    /\ precedes (Called StopWorkers) (Called Close) d
    /\ precedes (Returned StopWorkers) (Called Close) d
    /\ followed_by (Returned StopWorkers) (Called Close) d
    /\ ~ In RequestAccepted d.
Proof.
  rewrite shutdown_event_eq.
  destruct (QueueManager.stop_workers (queue_manager w)) as [[u | e] q1];
    [ destruct (SessionStore.close (session_store w)) as [[u' | e'] st1] | ];
    cbn [snd trace]; eexists;
    (split; [ reflexivity | ]);
    (split; [ explicit_precedes | ]);
    (split; [ explicit_precedes | ]);
    (split; [ explicit_followed | ]);
    simpl; intuition discriminate.
Qed.

Lemma on_signal_invariant (started : bool) (w : world S Q) (sig : signal) :
  lifecycle_invariant started w ->
  starts_before_requests started [sig] = true ->
  lifecycle_invariant
    (match sig with Startup => true | _ => started end) (on_signal w sig).
Proof.
  unfold lifecycle_invariant. intros (I1 & I2 & I3 & I4 & I5) HS.
  destruct sig as [ | r | ]; unfold on_signal.
  - (* startup *)
    rewrite startup_event_trace. cbn [snd trace].
    repeat split.
    + apply precedes_app; [assumption | explicit_precedes].
    + apply precedes_app; [assumption | explicit_precedes].
    + apply followed_by_app; [assumption | explicit_followed].
    + apply precedes_app; [assumption | explicit_precedes].
    + intros _. apply in_or_app. right. simpl. tauto.
  - (* a request *)
    simpl in HS. rewrite andb_true_r in HS. specialize (I5 HS).
    destruct (serve_emits r (log RequestAccepted w)) as (d & E & F).
    rewrite E. unfold log. cbn [trace]. rewrite <- !app_assoc. cbn [app].
    assert (N : forall a, a <> RequestAccepted -> ~ request_event a ->
                          ~ In a (RequestAccepted :: d)).
    { intros a Hn Hr [H | H].
      - now apply Hn.
      - rewrite Forall_forall in F. now apply Hr, F. }
    repeat split.
    + apply precedes_app; [assumption | ]. apply precedes_absent.
      apply N; [discriminate | simpl; tauto].
    + apply precedes_app; [assumption | ]. apply precedes_absent.
      apply N; [discriminate | simpl; tauto].
    + apply followed_by_app; [assumption | ]. apply followed_by_absent.
      apply N; [discriminate | simpl; tauto].
    + now apply precedes_after.
    + intros _. apply in_or_app. now left.
  - (* shutdown *)
    destruct (shutdown_event_trace w) as (d & E & P1 & P2 & P3 & N).
    rewrite E. repeat split.
    + now apply precedes_app.
    + now apply precedes_app.
    + now apply followed_by_app.
    + apply precedes_app; [assumption | now apply precedes_absent].
    + intros HT. apply in_or_app. left. now apply I5.
Qed.

Lemma run_signals_invariant (sigs : list signal) :
  forall (started : bool) (w : world S Q),
    starts_before_requests started sigs = true ->
    lifecycle_invariant started w ->
    exists started', lifecycle_invariant started' (run_signals sigs w).
Proof.
  unfold run_signals. induction sigs as [ | sig sigs IH ];
    intros started w HS I; simpl.
  - now exists started.
  - apply (IH (match sig with Startup => true | _ => started end)).
    + destruct sig; simpl in *; try assumption.
      now apply andb_true_iff in HS.
    + apply on_signal_invariant; [assumption | ].
      destruct sig; simpl in *; try reflexivity.
      apply andb_true_iff in HS. now rewrite (proj1 HS).
Qed.


End Lifecycle.

(** * Further properties *)

(** ** The bearer check *)

Lemma prefix_slice (p s : string) :
  String.prefix p s = true -> s = (p ++ slice_from (String.length p) s)%string.
Proof.
  revert s. induction p as [ | c p IH ]; intros s H.
  - reflexivity.
  - destruct s as [ | c' s ]; simpl in H; [discriminate H | ].
    destruct (Ascii.ascii_dec c c') as [<- | ]; [ | discriminate H ].
    simpl. f_equal. now apply IH.
Qed.

Lemma len_str_append (s1 s2 : string) :
  len_str (s1 ++ s2)%string = len_str s1 + len_str s2.
Proof.
  unfold len_str. rewrite <- Nat2Z.inj_add. f_equal.
  induction s1 as [ | c s1 IH ]; simpl; [reflexivity | now rewrite IH].
Qed.

(** X1.  An accepted header is the accepted key behind "Bearer ": the
    key has at least 10 characters and the header 7 more than the key. *)
Theorem verify_api_key_accepts_roundtrip (authorization api_key : string) :
  verify_api_key authorization = Value api_key ->
  authorization = ("Bearer " ++ api_key)%string
  /\ 10 <= len_str api_key
  /\ len_str authorization = 7 + len_str api_key.
Proof.
  rewrite verify_api_key_eq.
  destruct (startswith authorization "Bearer ") eqn:P; [ | discriminate ].
  destruct (len_str (slice_from 7 authorization) <? 10) eqn:L; [discriminate | ].
  intros [= <-]. apply Z.ltb_ge in L.
  assert (E : authorization
              = ("Bearer " ++ slice_from 7 authorization)%string)
    by exact (prefix_slice "Bearer " authorization P).
  repeat split; [exact E | exact L | ].
  rewrite E at 1. now rewrite len_str_append.
Qed.

(** X2.  The detail of a rejection tells the two failures apart:
    "Invalid authorization header" exactly when the value does not start
    with "Bearer ", "Invalid API key" exactly when it does and the rest is
    shorter than 10. *)
Theorem verify_api_key_detail (authorization : string) :
  (verify_api_key authorization
     = Throw (HTTPException 401 "Invalid authorization header")
   <-> startswith authorization "Bearer " = false)
  /\ (verify_api_key authorization = Throw (HTTPException 401 "Invalid API key")
      <-> startswith authorization "Bearer " = true
          /\ len_str (slice_from 7 authorization) < 10).
Proof.
  rewrite verify_api_key_eq.
  destruct (startswith authorization "Bearer ") eqn:P.
  - destruct (len_str (slice_from 7 authorization) <? 10) eqn:L.
    + apply Z.ltb_lt in L. repeat split; try discriminate; auto.
    + apply Z.ltb_ge in L. repeat split; try discriminate.
      intros [_ H]. lia.
  - repeat split; try discriminate. now intros [H _].
Qed.

(** ** Credentials and the routes *)

Section Credentials.
Context {S Session Q : Type}.
Context {store_ops : SessionStore.t S Session}.
Context {queue_ops : QueueManager.t Q}.

(** X3.  On each of the three routes, a request whose Authorization
    header the check rejects is answered with the status and detail of
    the rejection, and store, queue and trace are as they were: nothing is
    called. *)
Theorem rejected_credential_touches_nothing (r : request)
  (authorization : string) (status_code : Z) (detail : string)
  (w : world S Q) :
  authorization_of r = Some authorization ->
  verify_api_key authorization = Throw (HTTPException status_code detail) ->
  serve r w = (Response status_code (Detail detail), w).
Proof.
  intros HA HV.
  destruct r as [a [ | request] | a session_id | a agent_name limit offset];
    simpl in HA; subst a; simpl; unfold depends_verify_api_key;
    now rewrite HV.
Qed.

(** X4.  On each of the three routes, a request without Authorization
    header is answered 422 and nothing is called. *)
Theorem missing_header_touches_nothing (r : request) (w : world S Q) :
  authorization_of r = None ->
  serve r w = (Response 422 ValidationErrors, w).
Proof.
  intros HA.
  destruct r as [a [ | request] | a session_id | a agent_name limit offset];
    simpl in HA; subst a; reflexivity.
Qed.

End Credentials.

(** ** More on the ingestion route *)

Section IngestMore.
Context {S Session Q : Type}.
Context {store_ops : SessionStore.t S Session}.
Context {queue_ops : QueueManager.t Q}.

(** X5.  A batch of any size with an accepted credential, when the store
    call and every enqueue call return: the answer is 200 with success =
    true and sessions_received the length of the batch; there was one
    [store_sessions] call on the whole batch, then one enqueue call per
    session of the batch, in batch order (a session id that occurs twice
    is enqueued twice), as many as sessions_received says. *)
Theorem ingest_batch_returns (authorization api_key : string)
  (request : IngestRequest.t) (w : world S Q) (st' : S) (q' : Q) :
  verify_api_key authorization = Value api_key ->
  SessionStore.store_sessions (IngestRequest.sessions request) api_key
    (session_store w) = (Returns tt, st') ->
  enqueued (IngestRequest.sessions request) (queue_manager w) = Some q' ->
  let sessions := IngestRequest.sessions request in
  let delta :=
    stored_events sessions api_key ++ flat_map enqueue_events sessions in
  serve (POST_sessions_ingest (Some authorization) (Valid request)) w
  = (Response 200
       (Ingested
          {| IngestResponse.success := true;
             IngestResponse.sessions_received := Z.of_nat (List.length sessions);
             IngestResponse.message :=
               ("Successfully received "
                ++ format_int (Z.of_nat (List.length sessions))
                ++ " session(s)")%string |}),
     World st' q' (trace w ++ delta))
  /\ filter is_store_call (calls delta) = [StoreSessions sessions api_key]
  /\ filter is_enqueue (calls delta)
     = map (fun s => EnqueueSessionAnalysis (AgentSession.session_id s))
         sessions
  /\ List.length (filter is_enqueue (calls delta)) = List.length sessions.
Proof.
  intros HA HS HQ sessions delta.
  assert (E : filter is_enqueue (calls delta) = map enqueue_call sessions).
  { unfold delta. rewrite calls_app, calls_enqueue_events. simpl.
    apply filter_enqueue_enqueue_calls. }
  repeat split.
  - rewrite (serve_ingest _ _ _ _ HA). unfold run_endpoint.
    now rewrite (ingest_sessions_returns _ _ _ _ _ HS HQ).
  - unfold delta. rewrite calls_app, calls_enqueue_events. simpl.
    now rewrite filter_store_enqueue_calls.
  - exact E.
  - rewrite E. apply length_map.
Qed.

(** X6.  [except Exception] does not catch what is not an [Exception]:
    when the store or the queue raises such an object (a cancellation,
    say), the ingestion route answers no 500; the object leaves the
    handler as it is. *)
Theorem ingest_non_exception_escapes (authorization api_key : string)
  (request : IngestRequest.t) (w : world S Q) (e : PyExc) :
  verify_api_key authorization = Value api_key ->
  raised_in_ingest (IngestRequest.sessions request) api_key w e ->
  is_Exception e = false ->
  fst (serve (POST_sessions_ingest (Some authorization) (Valid request)) w)
  = Escaped e.
Proof.
  intros HA HR HE. rewrite (serve_ingest _ _ _ _ HA). unfold run_endpoint.
  destruct HR as [st' HS | pre session post st' qk q' HB HS HQ HF].
  - rewrite (ingest_sessions_store_raises _ _ _ _ _ HS).
    unfold except_Exception. now rewrite HE.
  - rewrite (ingest_sessions_enqueue_raises _ _ _ _ _ _ _ _ _ _ HB HS HQ HF).
    unfold except_Exception. now rewrite HE.
Qed.

(** X7.  With an accepted credential and a validated body, the ingestion
    route has three outcomes and no other: 200 with success = true and the
    size of the batch, when no call raised; 500 with [str(e)], when a call
    raised the [Exception] [e]; [e] itself escaping, when it is no
    [Exception].  It never reports a partly processed batch, and never
    answers with another status. *)
Theorem ingest_three_outcomes (authorization api_key : string)
  (request : IngestRequest.t) (w : world S Q) :
  verify_api_key authorization = Value api_key ->
  let r :=
    fst (serve (POST_sessions_ingest (Some authorization) (Valid request)) w) in
  (r = Response 200 (Ingested (received (IngestRequest.sessions request)))
   /\ (exists q', enqueued (IngestRequest.sessions request) (queue_manager w)
                  = Some q'))
  \/ (exists e,
         raised_in_ingest (IngestRequest.sessions request) api_key w e
         /\ is_Exception e = true
         /\ r = Response 500 (Detail (str e)))
  \/ (exists e,
         raised_in_ingest (IngestRequest.sessions request) api_key w e
         /\ is_Exception e = false
         /\ r = Escaped e).
Proof.
  intros HA r. unfold r. rewrite (serve_ingest _ _ _ _ HA). unfold run_endpoint.
  destruct (SessionStore.store_sessions (IngestRequest.sessions request)
              api_key (session_store w)) as [[[] | e] st'] eqn:HS.
  - destruct (enqueued_or_raises (IngestRequest.sessions request)
                (queue_manager w))
      as [[q' HQ] | (pre & x & post & qk & q' & e & HB & HQ & HR)].
    + left. rewrite (ingest_sessions_returns _ _ _ _ _ HS HQ). simpl.
      split; [reflexivity | now exists q'].
    + right.
      assert (R : raised_in_ingest (IngestRequest.sessions request)
                    api_key w e)
        by now apply (enqueue_raised _ _ _ _ pre x post st' qk q').
      rewrite (ingest_sessions_enqueue_raises _ _ _ _ _ _ _ _ _ _
                 HB HS HQ HR).
      unfold except_Exception.
      destruct (is_Exception e) eqn:HE; [left | right]; now exists e.
  - right.
    assert (R : raised_in_ingest (IngestRequest.sessions request) api_key w e)
      by now apply (store_raised _ _ _ _ st').
    rewrite (ingest_sessions_store_raises _ _ _ _ _ HS).
    unfold except_Exception.
    destruct (is_Exception e) eqn:HE; [left | right]; now exists e.
Qed.

(** X8.  What the store is given as [api_key] is the bearer token itself,
    the header value without its "Bearer " prefix: for a token of 10
    characters or more, the first thing the ingestion route does is to
    call [store_sessions] with the batch and that token, whatever the
    store then does. *)
Theorem ingest_forwards_bearer_token (token : string)
  (request : IngestRequest.t) (w : world S Q) :
  10 <= len_str token ->
  exists tail,
    trace (snd (serve (POST_sessions_ingest
                         (Some ("Bearer " ++ token)%string) (Valid request)) w))
    = trace w
        ++ Called (StoreSessions (IngestRequest.sessions request) token)
        :: tail.
Proof.
  intros HL.
  assert (HA : verify_api_key ("Bearer " ++ token)%string = Value token).
  { rewrite verify_api_key_eq, startswith_bearer, slice_from_bearer.
    apply Z.ltb_ge in HL. now rewrite HL. }
  rewrite (serve_ingest _ _ _ _ HA). unfold run_endpoint.
  destruct (SessionStore.store_sessions (IngestRequest.sessions request)
              token (session_store w)) as [[[] | e] st'] eqn:HS.
  - destruct (enqueued_or_raises (IngestRequest.sessions request)
                (queue_manager w))
      as [[q' HQ] | (pre & x & post & qk & q' & e & HB & HQ & HR)].
    + rewrite (ingest_sessions_returns _ _ _ _ _ HS HQ). simpl.
      now eexists.
    + rewrite (ingest_sessions_enqueue_raises _ _ _ _ _ _ _ _ _ _
                 HB HS HQ HR).
      unfold except_Exception. destruct (is_Exception e); simpl; now eexists.
  - rewrite (ingest_sessions_store_raises _ _ _ _ _ HS).
    unfold except_Exception. destruct (is_Exception e); simpl; now eexists.
Qed.

(** X9.  The [timestamp] of an ingest request is never read: two
    requests with the same sessions are handled alike, answer, store,
    queue and trace, whatever their timestamps. *)
Theorem ingest_ignores_timestamp (authorization : option string)
  (request1 request2 : IngestRequest.t) (w : world S Q) :
  IngestRequest.sessions request1 = IngestRequest.sessions request2 ->
  serve (POST_sessions_ingest authorization (Valid request1)) w
  = serve (POST_sessions_ingest authorization (Valid request2)) w.
Proof.
  destruct request1 as [l1 t1], request2 as [l2 t2]. simpl. intros <-.
  reflexivity.
Qed.

End IngestMore.

(** ** More on the read routes *)

Section ReadMore.
Context {S Session Q : Type}.
Context {store_ops : SessionStore.t S Session}.
Context {queue_ops : QueueManager.t Q}.

Lemma get_session_store_raises (session_id api_key : string) (w : world S Q)
  (e : PyExc) (st' : S) :
  SessionStore.get_session session_id (session_store w) = (Raises e, st') ->
  get_session session_id api_key w
  = (Throw (Foreign e),
     World st' (queue_manager w)
       (trace w ++ [Called (GetSession session_id);
                    Raised (GetSession session_id) e])).
Proof.
  intros H. destruct w as [st q t]. simpl in *.
  unfold get_session, bind, uncaught, try_except, await_store. simpl.
  rewrite H. unfold log, raise. simpl. now rewrite <- !app_assoc.
Qed.

(** X10.  [get_session] has no [try]: when the store's [get_session]
    raises, the handler raises no "Session not found" of its own; the
    exception leaves the handler as it is, after that one call. *)
Theorem get_session_store_failure_escapes
  (authorization api_key session_id : string) (w : world S Q)
  (e : PyExc) (st' : S) :
  verify_api_key authorization = Value api_key ->
  SessionStore.get_session session_id (session_store w) = (Raises e, st') ->
  serve (GET_session (Some authorization) session_id) w
  = (Escaped e,
     World st' (queue_manager w)
       (trace w ++ [Called (GetSession session_id);
                    Raised (GetSession session_id) e])).
Proof.
  intros HA HG. rewrite (serve_get_session _ _ _ _ HA). unfold run_endpoint.
  now rewrite (get_session_store_raises _ _ _ _ _ HG).
Qed.

(** X11.  The test is [if not session], not a test for [None]: when the
    store returns an object that is false in Python (an empty dict, say),
    the route answers 404 "Session not found" although the store found a
    session. *)
Theorem get_session_falsy_is_404 (authorization api_key session_id : string)
  (w : world S Q) (session : Session) (st' : S) :
  verify_api_key authorization = Value api_key ->
  SessionStore.get_session session_id (session_store w)
    = (Returns (Some session), st') ->
  SessionStore.session_truth session = false ->
  fst (serve (GET_session (Some authorization) session_id) w)
  = Response 404 (Detail "Session not found").
Proof.
  intros HA HG HT. rewrite (serve_get_session _ _ _ _ HA). unfold run_endpoint.
  rewrite (get_session_after_store _ _ _ _ _ HG). simpl. now rewrite HT.
Qed.

Lemma list_agent_sessions_store_raises (agent_name api_key : string)
  (limit offset : Z) (w : world S Q) (e : PyExc) (st' : S) :
  SessionStore.list_sessions agent_name limit offset (session_store w)
    = (Raises e, st') ->
  list_agent_sessions agent_name limit offset api_key w
  = (Throw (Foreign e),
     World st' (queue_manager w)
       (trace w ++ [Called (ListSessions agent_name limit offset);
                    Raised (ListSessions agent_name limit offset) e])).
Proof.
  intros H. destruct w as [st q t]. simpl in *.
  unfold list_agent_sessions, bind, uncaught, try_except, await_store. simpl.
  rewrite H. unfold log, raise. simpl. now rewrite <- !app_assoc.
Qed.

Lemma list_agent_sessions_store_returns (agent_name api_key : string)
  (limit offset : Z) (w : world S Q) (sessions : list Session) (st' : S) :
  SessionStore.list_sessions agent_name limit offset (session_store w)
    = (Returns sessions, st') ->
  list_agent_sessions agent_name limit offset api_key w
  = (Value {| listing_agent_name := agent_name;
              listing_sessions := sessions;
              listing_count := len sessions;
              listing_limit := limit;
              listing_offset := offset |},
     World st' (queue_manager w)
       (trace w ++ [Called (ListSessions agent_name limit offset);
                    Returned (ListSessions agent_name limit offset)])).
Proof.
  intros H. destruct w as [st q t]. simpl in *.
  unfold list_agent_sessions, bind, uncaught, try_except, await_store. simpl.
  rewrite H. unfold log, ret. simpl. now rewrite <- !app_assoc.
Qed.

(** X12.  [list_agent_sessions] has no [try] either: when the store's
    [list_sessions] raises, the exception leaves the handler as it is,
    after that one call, made with the defaults for what was omitted. *)
Theorem list_agent_sessions_store_failure_escapes
  (authorization api_key agent_name : string) (limit offset : option Z)
  (w : world S Q) (e : PyExc) (st' : S) :
  verify_api_key authorization = Value api_key ->
  SessionStore.list_sessions agent_name (default 100 limit) (default 0 offset)
    (session_store w) = (Raises e, st') ->
  serve (GET_agent_sessions (Some authorization) agent_name limit offset) w
  = (Escaped e,
     World st' (queue_manager w)
       (trace w
          ++ [Called (ListSessions agent_name (default 100 limit)
                        (default 0 offset));
              Raised (ListSessions agent_name (default 100 limit)
                        (default 0 offset)) e])).
Proof.
  intros HA HL.
  rewrite (serve_list_agent_sessions _ _ _ _ _ _ HA). unfold run_endpoint.
  now rewrite (list_agent_sessions_store_raises _ _ _ _ _ _ _ HL).
Qed.

(** X13.  The two read routes never touch the queue manager: whatever
    the credential and whatever the store does, its state is as it was,
    and all the request adds to the trace are events of at most one call
    into the store. *)
Theorem read_routes_leave_queue (r : request) (w : world S Q) :
  is_read r = true ->
  queue_manager (snd (serve r w)) = queue_manager w
  /\ exists d,
       trace (snd (serve r w)) = trace w ++ d
       /\ Forall store_event d
       /\ (List.length (calls d) <= 1)%nat.
Proof.
  intros HR.
  assert (N : queue_manager w = queue_manager w
              /\ exists d, trace w = trace w ++ d /\ Forall store_event d
                           /\ (List.length (calls d) <= 1)%nat).
  { split; [reflexivity | ]. exists []. rewrite app_nil_r. simpl. auto. }
  destruct r as [a body | a session_id | a agent_name limit offset];
    [discriminate HR | | ]; simpl; unfold depends_verify_api_key;
    (destruct a as [value | ]; [ | exact N ]);
    (destruct (verify_api_key value) as [api_key | [status detail | e]];
     [ | exact N | exact N ]); unfold run_endpoint.
  - destruct (SessionStore.get_session session_id (session_store w))
      as [[found | e] st'] eqn:HG.
    + rewrite (get_session_after_store _ _ _ _ _ HG).
      destruct (negb (truth found)); simpl;
        (split; [reflexivity | eexists; split; [reflexivity | ] ]);
        simpl; auto.
    + rewrite (get_session_store_raises _ _ _ _ _ HG). simpl.
      split; [reflexivity | eexists; split; [reflexivity | ] ]. simpl. auto.
  - destruct (SessionStore.list_sessions agent_name (default 100 limit)
                (default 0 offset) (session_store w))
      as [[found | e] st'] eqn:HL.
    + rewrite (list_agent_sessions_store_returns _ _ _ _ _ _ _ HL). simpl.
      split; [reflexivity | eexists; split; [reflexivity | ] ]. simpl. auto.
    + rewrite (list_agent_sessions_store_raises _ _ _ _ _ _ _ HL). simpl.
      split; [reflexivity | eexists; split; [reflexivity | ] ]. simpl. auto.
Qed.

End ReadMore.

(** ** More on the lifecycle hooks *)

Section LifecycleMore.
Context {S Session Q : Type}.
Context {store_ops : SessionStore.t S Session}.
Context {queue_ops : QueueManager.t Q}.

(** X14.  When [stop_workers] raises, the shutdown hook ends there: the
    store's [close] is not called, the store is left as it was, "Shutdown
    complete" is not printed, and the exception leaves the hook. *)
Theorem shutdown_stop_failure_skips_close (w : world S Q) (e : PyExc) (q' : Q) :
  QueueManager.stop_workers (queue_manager w) = (Raises e, q') ->
  shutdown_event w
  = (Throw (Foreign e),
     World (session_store w) q'
       (trace w ++ [Printed ShuttingDown; Called StopWorkers;
                    Raised StopWorkers e])).
Proof.
  intros H. destruct w as [st q t]. simpl in *.
  unfold shutdown_event, bind, print, uncaught, try_except, await_queue,
    raise, log. simpl. rewrite H. simpl. now rewrite <- !app_assoc.
Qed.

(** X15.  When [stop_workers] returns, the shutdown hook calls the
    store's [close] next, once.  If [close] returns the hook prints
    "Shutdown complete" and returns; if [close] raises, nothing is printed
    after it and the exception leaves the hook. *)
Theorem shutdown_after_stop (w : world S Q) (q' : Q) :
  QueueManager.stop_workers (queue_manager w) = (Returns tt, q') ->
  shutdown_event w
  = match SessionStore.close (session_store w) with
    | (Returns _, st') =>
        (Value tt,
         World st' q'
           (trace w ++ [Printed ShuttingDown;
                        Called StopWorkers; Returned StopWorkers;
                        Called Close; Returned Close;
                        Printed ShutdownComplete]))
    | (Raises e, st') =>
        (Throw (Foreign e),
         World st' q'
           (trace w ++ [Printed ShuttingDown;
                        Called StopWorkers; Returned StopWorkers;
                        Called Close; Raised Close e]))
    end.
Proof.
  intros H. destruct w as [st q t]. simpl in *.
  unfold shutdown_event, bind, print, uncaught, try_except, await_queue,
    await_store, raise, log. simpl. rewrite H. simpl.
  destruct (SessionStore.close st) as [[u | e] st']; simpl;
    now rewrite <- !app_assoc.
Qed.

End LifecycleMore.

(** ** Health, analysis and platform metrics *)

Section PlatformFacts.
Context {S Q A Analysis : Type}.
Context {counters : Counters.t S Q}.
Context {analyzer_ops : SessionAnalyzer.t A Analysis}.

Ltac run_probes :=
  unfold run_open, get_platform_metrics, get_agent_metrics,
    get_agent_regressions, get_agent_anomalies, and_then, answer,
    ask_store, ask_queue, ask_analyzer, ask, note, with_store, with_queue,
    with_analyzer; simpl.

(** X17.  [/metrics] takes no credential.  It asks the store for the
    number of sessions, then the queue manager for its size, then the
    store (as the first call left it) for the number of active agents;
    when the three calls return, it answers 200 with the three numbers as
    returned. *)
Theorem platform_metrics_in_order (p : platform S Q A)
  (processed size agents : Z) (st1 st2 : S) (q1 : Q) :
  Counters.count_sessions (session_store (singletons p))
    = (Returns processed, st1) ->
  Counters.get_queue_size (queue_manager (singletons p))
    = (Returns size, q1) ->
  Counters.count_active_agents st1 = (Returns agents, st2) ->
  serve_open GET_metrics p
  = (Sent 200
       (Metrics {| sessions_processed := processed;
                   queue_size := size;
                   active_agents := agents |}),
     {| singletons :=
          {| session_store := st2; queue_manager := q1;
             trace := trace (singletons p) |};
        session_analyzer := session_analyzer p;
        probes :=
          probes p ++ [Asked CountSessions; Answered CountSessions;
                       Asked GetQueueSize; Answered GetQueueSize;
                       Asked CountActiveAgents; Answered CountActiveAgents] |}).
Proof.
  intros H1 H2 H3. destruct p as [[st q t] a l]. simpl in *. run_probes.
  rewrite H1. simpl. rewrite H2. simpl. rewrite H3. simpl.
  now rewrite <- !app_assoc.
Qed.

(** X18.  [/metrics] has no [try]: when the store's [count_sessions]
    raises, no answer is made, the exception leaves the handler, and
    neither the queue size nor the number of active agents is asked
    for. *)
Theorem platform_metrics_store_failure (p : platform S Q A) (e : PyExc)
  (st1 : S) :
  Counters.count_sessions (session_store (singletons p)) = (Raises e, st1) ->
  serve_open GET_metrics p
  = (Lost e,
     {| singletons :=
          {| session_store := st1;
             queue_manager := queue_manager (singletons p);
             trace := trace (singletons p) |};
        session_analyzer := session_analyzer p;
        probes := probes p ++ [Asked CountSessions; Failed CountSessions e] |}).
Proof.
  intros H1. destruct p as [[st q t] a l]. simpl in *. run_probes.
  rewrite H1. simpl. now rewrite <- !app_assoc.
Qed.

(** X19.  When [count_sessions] returns and the queue manager's
    [get_queue_size] raises, the count already obtained is dropped: no
    answer is made, the exception leaves the handler, and the number of
    active agents is not asked for. *)
Theorem platform_metrics_queue_failure (p : platform S Q A) (e : PyExc)
  (processed : Z) (st1 : S) (q1 : Q) :
  Counters.count_sessions (session_store (singletons p))
    = (Returns processed, st1) ->
  Counters.get_queue_size (queue_manager (singletons p)) = (Raises e, q1) ->
  serve_open GET_metrics p
  = (Lost e,
     {| singletons :=
          {| session_store := st1; queue_manager := q1;
             trace := trace (singletons p) |};
        session_analyzer := session_analyzer p;
        probes :=
          probes p ++ [Asked CountSessions; Answered CountSessions;
                       Asked GetQueueSize; Failed GetQueueSize e] |}).
Proof.
  intros H1 H2. destruct p as [[st q t] a l]. simpl in *. run_probes.
  rewrite H1. simpl. rewrite H2. simpl. now rewrite <- !app_assoc.
Qed.

Lemma serve_open_accepted (authorization api_key : string)
  (endpoint : string -> platform S Q A -> sent Analysis * platform S Q A)
  (p : platform S Q A) :
  verify_api_key authorization = Value api_key ->
  with_api_key (Some authorization) endpoint p = endpoint api_key p.
Proof. intros H. unfold with_api_key. now rewrite H. Qed.

(** X20.  [GET /v1/agents/{agent_name}/metrics] with an accepted
    credential: the analyzer's [get_agent_metrics] is called once, with
    the agent name and the hours asked for, 24 when omitted; what it
    returns is the answer, as returned. *)
Theorem agent_metrics_pass_through (authorization api_key agent_name : string)
  (hours : option Z) (p : platform S Q A) (metrics : Analysis) (a' : A) :
  verify_api_key authorization = Value api_key ->
  let h := match hours with None => 24 | Some n => n end in
  SessionAnalyzer.get_agent_metrics agent_name h (session_analyzer p)
    = (Returns metrics, a') ->
  serve_open (GET_agent_metrics (Some authorization) agent_name hours) p
  = (Sent 200 (AgentMetrics metrics),
     {| singletons := singletons p;
        session_analyzer := a';
        probes := probes p ++ [Asked (GetAgentMetrics agent_name h);
                               Answered (GetAgentMetrics agent_name h)] |}).
Proof.
  intros HA h H. unfold serve_open. rewrite (serve_open_accepted _ _ _ _ HA).
  destruct p as [w a l]. simpl in *. run_probes.
  unfold default. fold h. rewrite H. simpl. now rewrite <- !app_assoc.
Qed.

(** X21.  [GET /v1/agents/{agent_name}/regressions] with an accepted
    credential: the analyzer's [detect_regressions] is called once, with
    the agent name and the hours asked for, 24 when omitted; the answer
    carries that agent name, those hours as time_window_hours, and what
    the analyzer returned, as returned. *)
Theorem agent_regressions_echo (authorization api_key agent_name : string)
  (hours : option Z) (p : platform S Q A) (regressions : Analysis) (a' : A) :
  verify_api_key authorization = Value api_key ->
  let h := match hours with None => 24 | Some n => n end in
  SessionAnalyzer.detect_regressions agent_name h (session_analyzer p)
    = (Returns regressions, a') ->
  serve_open (GET_agent_regressions (Some authorization) agent_name hours) p
  = (Sent 200
       (Regressions {| findings_agent_name := agent_name;
                       time_window_hours := h;
                       findings := regressions |}),
     {| singletons := singletons p;
        session_analyzer := a';
        probes := probes p ++ [Asked (DetectRegressions agent_name h);
                               Answered (DetectRegressions agent_name h)] |}).
Proof.
  intros HA h H. unfold serve_open. rewrite (serve_open_accepted _ _ _ _ HA).
  destruct p as [w a l]. simpl in *. run_probes.
  unfold default. fold h. rewrite H. simpl. now rewrite <- !app_assoc.
Qed.

(** X22.  [GET /v1/agents/{agent_name}/anomalies] with an accepted
    credential: the analyzer's [detect_anomalies] is called once, with
    the agent name and the hours asked for, 24 when omitted; the answer
    carries that agent name, those hours as time_window_hours, and what
    the analyzer returned, as returned. *)
Theorem agent_anomalies_echo (authorization api_key agent_name : string)
  (hours : option Z) (p : platform S Q A) (anomalies : Analysis) (a' : A) :
  verify_api_key authorization = Value api_key ->
  let h := match hours with None => 24 | Some n => n end in
  SessionAnalyzer.detect_anomalies agent_name h (session_analyzer p)
    = (Returns anomalies, a') ->
  serve_open (GET_agent_anomalies (Some authorization) agent_name hours) p
  = (Sent 200
       (Anomalies {| findings_agent_name := agent_name;
                     time_window_hours := h;
                     findings := anomalies |}),
     {| singletons := singletons p;
        session_analyzer := a';
        probes := probes p ++ [Asked (DetectAnomalies agent_name h);
                               Answered (DetectAnomalies agent_name h)] |}).
Proof.
  intros HA h H. unfold serve_open. rewrite (serve_open_accepted _ _ _ _ HA).
  destruct p as [w a l]. simpl in *. run_probes.
  unfold default. fold h. rewrite H. simpl. now rewrite <- !app_assoc.
Qed.

(** X23.  On the three analysis routes the analyzer is not called
    without an accepted credential: a request without Authorization
    header is answered 422, a request whose header the check does not
    accept is answered 401 with the detail of the check, and in both cases
    the three singletons and the log are as they were. *)
Theorem analysis_requires_credential (r : open_request)
  (authorization : option string) (p : platform S Q A) :
  open_authorization r = Some authorization ->
  (authorization = None ->
   serve_open r p = (Sent 422 PageValidationErrors, p))
  /\ (forall value,
        authorization = Some value ->
        (forall api_key, verify_api_key value <> Value api_key) ->
        exists detail,
          verify_api_key value = Throw (HTTPException 401 detail)
          /\ serve_open r p = (Sent 401 (PageDetail detail), p)).
Proof.
  intros HR.
  assert (K : forall endpoint : string -> platform S Q A
                                  -> sent Analysis * platform S Q A,
             (authorization = None ->
              with_api_key authorization endpoint p
              = (Sent 422 PageValidationErrors, p))
             /\ (forall value,
                   authorization = Some value ->
                   (forall api_key, verify_api_key value <> Value api_key) ->
                   exists detail,
                     verify_api_key value = Throw (HTTPException 401 detail)
                     /\ with_api_key authorization endpoint p
                        = (Sent 401 (PageDetail detail), p))).
  { intro endpoint. split.
    - intros ->. reflexivity.
    - intros value -> N. unfold with_api_key.
      rewrite verify_api_key_eq in *.
      destruct (startswith value "Bearer ").
      + destruct (len_str (slice_from 7 value) <? 10).
        * now eexists.
        * now elim (N (slice_from 7 value)).
      + now eexists. }
  destruct r as [now | a agent_name hours | a agent_name hours
                | a agent_name hours | ]; simpl in HR;
    try discriminate HR; injection HR as ->; apply K.
Qed.

(** X24.  The routes keep to their collaborators: [/health] touches
    nothing; an analysis route leaves store and queue manager as they
    were; [/metrics] leaves the analyzer as it was.  None of the five
    adds to the trace of store and queue calls. *)
Theorem open_routes_keep_apart (r : open_request) (p : platform S Q A) :
  let p' := snd (serve_open r p) in
  trace (singletons p') = trace (singletons p)
  /\ match r with
     | GET_health _ => p' = p
     | GET_metrics => session_analyzer p' = session_analyzer p
     | _ => singletons p' = singletons p
     end.
Proof.
  destruct r as [now | a agent_name hours | a agent_name hours
                | a agent_name hours | ]; unfold serve_open.
  - now split.
  - unfold with_api_key.
    destruct a as [value | ]; [ | now split ].
    destruct (verify_api_key value) as [api_key | [status detail | e]];
      [ | now split | now split ].
    destruct p as [w a l]. run_probes.
    destruct (SessionAnalyzer.get_agent_metrics _ _ _) as [[x | e] a'];
      now split.
  - unfold with_api_key.
    destruct a as [value | ]; [ | now split ].
    destruct (verify_api_key value) as [api_key | [status detail | e]];
      [ | now split | now split ].
    destruct p as [w a l]. run_probes.
    destruct (SessionAnalyzer.detect_regressions _ _ _) as [[x | e] a'];
      now split.
  - unfold with_api_key.
    destruct a as [value | ]; [ | now split ].
    destruct (verify_api_key value) as [api_key | [status detail | e]];
      [ | now split | now split ].
    destruct p as [w a l]. run_probes.
    destruct (SessionAnalyzer.detect_anomalies _ _ _) as [[x | e] a'];
      now split.
  - destruct p as [[st q t] a l]. run_probes.
    destruct (Counters.count_sessions st) as [[x | e] st1]; simpl;
      [ | now split ].
    destruct (Counters.get_queue_size q) as [[y | e] q1]; simpl;
      [ | now split ].
    destruct (Counters.count_active_agents st1) as [[z | e] st2]; simpl;
      now split.
Qed.

End PlatformFacts.

(** * Closed instances

    The theorems above at the in-memory collaborators, and the runs that
    settle what the application does where a statement about it fails. *)

Import InMemory.

(** C1 as stated fails: an accepted batch of two sessions is answered
    with success and sessions_received = 2 after one store call, not two. *)
Lemma ingest_two_sessions_single_store_call :
  let r := serve (store_ops := roomy) (queue_ops := long_queue)
             (POST_sessions_ingest (Some bearer) (Valid (batch [s1; s2])))
             empty in
  verify_api_key bearer = Value key
  /\ fst r
     = Response 200
         (Ingested
            {| IngestResponse.success := true;
               IngestResponse.sessions_received := 2;
               IngestResponse.message := "Successfully received 2 session(s)" |})
  /\ filter is_store_call (calls (trace (snd r)))
     = [StoreSessions [s1; s2] key]
  /\ List.length (filter is_store_call (calls (trace (snd r)))) <> 2%nat.
Proof. repeat split. simpl. discriminate. Qed.

Lemma ingest_two_sessions_witness :
  serve (store_ops := roomy) (queue_ops := long_queue)
    (POST_sessions_ingest (Some bearer) (Valid (batch [s1; s2]))) empty
  = (Response 200
       (Ingested
          {| IngestResponse.success := true;
             IngestResponse.sessions_received := 2;
             IngestResponse.message := "Successfully received 2 session(s)" |}),
     World [s1; s2] ["s-1"; "s-2"]
       [Called (StoreSessions [s1; s2] key);
        Returned (StoreSessions [s1; s2] key);
        Called (EnqueueSessionAnalysis "s-1");
        Returned (EnqueueSessionAnalysis "s-1");
        Called (EnqueueSessionAnalysis "s-2");
        Returned (EnqueueSessionAnalysis "s-2")]).
Proof.
  exact (proj1 (ingest_two_sessions (store_ops := roomy)
                  (queue_ops := long_queue) bearer key (batch [s1; s2])
                  s1 s2 empty [s1; s2] ["s-1"] ["s-1"; "s-2"]
                  eq_refl eq_refl eq_refl eq_refl eq_refl)).
Defined.

(** C2 as stated fails: without an Authorization header the answer is
    422, not 401. *)
Lemma ingest_without_authorization_not_401 :
  let r := serve (store_ops := roomy) (queue_ops := long_queue)
             (POST_sessions_ingest None (Valid (batch [s1; s2]))) empty in
  status_of (fst r) = Some 422 /\ status_of (fst r) <> Some 401.
Proof. split; [reflexivity | discriminate]. Qed.

Lemma ingest_exception_is_500_witness :
  fst (serve (store_ops := tight) (queue_ops := long_queue)
         (POST_sessions_ingest (Some bearer) (Valid (batch [s1; s2]))) empty)
  = Response 500 (Detail "store is full").
Proof.
  exact (ingest_exception_is_500 (store_ops := tight)
           (queue_ops := long_queue) bearer key (batch [s1; s2]) empty
           (full "store") eq_refl
           (store_raised (store_ops := tight) (queue_ops := long_queue)
              [s1; s2] key empty (full "store") [] eq_refl)
           eq_refl).
Defined.

Lemma ingest_enqueue_failure_keeps_store_witness :
  serve (store_ops := roomy) (queue_ops := short_queue)
    (POST_sessions_ingest (Some bearer) (Valid (batch [s1; s2; s3]))) empty
  = (Response 500 (Detail "queue is full"),
     World [s1; s2; s3] ["s-1"]
       [Called (StoreSessions [s1; s2; s3] key);
        Returned (StoreSessions [s1; s2; s3] key);
        Called (EnqueueSessionAnalysis "s-1");
        Returned (EnqueueSessionAnalysis "s-1");
        Called (EnqueueSessionAnalysis "s-2");
        Raised (EnqueueSessionAnalysis "s-2") (full "queue")]).
Proof.
  exact (proj1 (ingest_enqueue_failure_keeps_store (store_ops := roomy)
                  (queue_ops := short_queue) bearer key (batch [s1; s2; s3])
                  empty [s1] s2 [s3] [s1; s2; s3] ["s-1"] ["s-1"]
                  (full "queue")
                  eq_refl eq_refl eq_refl eq_refl eq_refl)).
Defined.

Lemma get_session_404_iff_witness :
  let w := World [s1; s3] ([] : list string) [] in
  fst (serve (store_ops := roomy) (queue_ops := long_queue)
         (GET_session (Some bearer) "s-3") w)
  = Response 200 (OneSession (Some s3)).
Proof.
  intro w.
  exact (proj2 (proj2
           (get_session_404_iff (store_ops := roomy) (queue_ops := long_queue)
              bearer key "s-3" w (Some s3) [s1; s3] eq_refl eq_refl))
           s3 eq_refl eq_refl).
Defined.

(** C4 as stated fails: a queue call that is cancelled raises what is no
    [Exception]; the ingestion route then answers no 500. *)
Lemma ingest_cancelled_is_not_500 :
  let r := fst (serve (store_ops := roomy)
                  (queue_ops := Faulty.queue_raising Faulty.cancelled)
                  (POST_sessions_ingest (Some bearer) (Valid (batch [s1])))
                  empty) in
  verify_api_key bearer = Value key
  /\ raised_in_ingest (store_ops := roomy)
       (queue_ops := Faulty.queue_raising Faulty.cancelled)
       [s1] key empty Faulty.cancelled
  /\ r = Escaped Faulty.cancelled
  /\ r <> Response 500 (Detail (str Faulty.cancelled))
  /\ status_of r <> Some 500.
Proof.
  repeat split; try discriminate.
  now apply (enqueue_raised (store_ops := roomy)
               (queue_ops := Faulty.queue_raising Faulty.cancelled)
               [s1] key empty Faulty.cancelled [] s1 [] [s1] [] []).
Qed.

(** C5 as stated fails: the store call returns, the first enqueue call
    returns and the second is cancelled; the sessions stay stored, and the
    request does not fail with 500. *)
Lemma ingest_cancelled_enqueue_is_not_500 :
  let store := roomy in
  let queue := Faulty.cancelling_queue 1 in
  let r := serve (store_ops := store) (queue_ops := queue)
             (POST_sessions_ingest (Some bearer) (Valid (batch [s1; s2; s3])))
             empty in
  SessionStore.store_sessions (t := store) [s1; s2; s3] key []
    = (Returns tt, [s1; s2; s3])
  /\ enqueued (queue_ops := queue) [s1] [] = Some ["s-1"]
  /\ enqueue_of (queue_ops := queue) s2 ["s-1"]
     = (Raises Faulty.cancelled, ["s-1"])
  /\ session_store (snd r) = [s1; s2; s3]
  /\ queue_manager (snd r) = ["s-1"]
  /\ fst r = Escaped Faulty.cancelled
  /\ status_of (fst r) <> Some 500.
Proof. repeat split. discriminate. Qed.

(** C6 as stated fails: the store returns a session that is an empty
    dict, not [None], and the answer is 404. *)
Lemma get_session_404_for_stored_row :
  let w := World [("s-1", Faulty.row_of s1); ("s-0", [])]
             ([] : list string) [] in
  SessionStore.get_session (t := Faulty.row_store) "s-0" (session_store w)
    = (Returns (Some []), session_store w)
  /\ Some ([] : PyDict) <> None
  /\ status_of (fst (serve (store_ops := Faulty.row_store)
                       (queue_ops := long_queue)
                       (GET_session (Some bearer) "s-0") w))
     = Some 404.
Proof. repeat split. discriminate. Qed.

(** C7 as stated fails: the empty batch is accepted and answered with
    success. *)
Lemma ingest_accepts_empty_batch :
  fst (serve (store_ops := roomy) (queue_ops := long_queue)
         (POST_sessions_ingest (Some bearer) (Valid (batch []))) empty)
  = Response 200
      (Ingested
         {| IngestResponse.success := true;
            IngestResponse.sessions_received := 0;
            IngestResponse.message := "Successfully received 0 session(s)" |}).
Proof. reflexivity. Qed.

Lemma ingest_empty_batch_witness :
  serve (store_ops := roomy) (queue_ops := long_queue)
    (POST_sessions_ingest (Some bearer) (Valid (batch []))) empty
  = (Response 200
       (Ingested
          {| IngestResponse.success := true;
             IngestResponse.sessions_received := 0;
             IngestResponse.message := "Successfully received 0 session(s)" |}),
     World [] []
       [Called (StoreSessions [] key); Returned (StoreSessions [] key)]).
Proof.
  exact (ingest_empty_batch (store_ops := roomy) (queue_ops := long_queue)
           bearer key (batch []) empty [] eq_refl eq_refl eq_refl).
Defined.

Lemma list_agent_sessions_passes_through_witness :
  let w := World [s1; s3; s2] ([] : list string) [] in
  serve (store_ops := roomy) (queue_ops := long_queue)
    (GET_agent_sessions (Some bearer) "support-bot" (Some 1000000) None) w
  = (Response 200
       (Sessions
          {| listing_agent_name := "support-bot";
             listing_sessions := [s1; s2];
             listing_count := 2;
             listing_limit := 1000000;
             listing_offset := 0 |}),
     World [s1; s3; s2] []
       [Called (ListSessions "support-bot" 1000000 0);
        Returned (ListSessions "support-bot" 1000000 0)]).
Proof.
  intro w.
  exact (list_agent_sessions_passes_through (store_ops := roomy)
           (queue_ops := long_queue) bearer key "support-bot"
           (Some 1000000) None w [s1; s2] [s1; s3; s2] eq_refl eq_refl).
Defined.


Lemma ingest_store_failure_skips_queue_witness :
  snd (serve (store_ops := tight) (queue_ops := long_queue)
         (POST_sessions_ingest (Some bearer) (Valid (batch [s1; s2]))) empty)
  = World [] []
      [Called (StoreSessions [s1; s2] key);
       Raised (StoreSessions [s1; s2] key) (full "store")].
Proof.
  exact (proj1 (ingest_store_failure_skips_queue (store_ops := tight)
                  (queue_ops := long_queue) bearer key (batch [s1; s2]) empty
                  [] (full "store") eq_refl eq_refl)).
Defined.

(** ** Closed instances of the further properties *)

Lemma verify_api_key_accepts_roundtrip_witness :
  bearer = ("Bearer " ++ key)%string
  /\ 10 <= len_str key
  /\ len_str bearer = 7 + len_str key.
Proof. exact (verify_api_key_accepts_roundtrip bearer key eq_refl). Defined.

Lemma rejected_credential_touches_nothing_witness :
  serve (store_ops := roomy) (queue_ops := long_queue)
    (GET_session (Some "Bearer short") "s-1") empty
  = (Response 401 (Detail "Invalid API key"), empty).
Proof.
  exact (rejected_credential_touches_nothing (store_ops := roomy)
           (queue_ops := long_queue)
           (GET_session (Some "Bearer short") "s-1") "Bearer short"
           401 "Invalid API key" empty eq_refl eq_refl).
Defined.

Lemma missing_header_touches_nothing_witness :
  serve (store_ops := roomy) (queue_ops := long_queue)
    (GET_agent_sessions None "support-bot" None None) empty
  = (Response 422 ValidationErrors, empty).
Proof.
  exact (missing_header_touches_nothing (store_ops := roomy)
           (queue_ops := long_queue)
           (GET_agent_sessions None "support-bot" None None) empty eq_refl).
Defined.

Lemma ingest_batch_returns_witness :
  serve (store_ops := roomy) (queue_ops := long_queue)
    (POST_sessions_ingest (Some bearer) (Valid (batch [s1; s2; s1]))) empty
  = (Response 200
       (Ingested
          {| IngestResponse.success := true;
             IngestResponse.sessions_received := 3;
             IngestResponse.message := "Successfully received 3 session(s)" |}),
     World [s1; s2; s1] ["s-1"; "s-2"; "s-1"]
       [Called (StoreSessions [s1; s2; s1] key);
        Returned (StoreSessions [s1; s2; s1] key);
        Called (EnqueueSessionAnalysis "s-1");
        Returned (EnqueueSessionAnalysis "s-1");
        Called (EnqueueSessionAnalysis "s-2");
        Returned (EnqueueSessionAnalysis "s-2");
        Called (EnqueueSessionAnalysis "s-1");
        Returned (EnqueueSessionAnalysis "s-1")]).
Proof.
  exact (proj1 (ingest_batch_returns (store_ops := roomy)
                  (queue_ops := long_queue) bearer key (batch [s1; s2; s1])
                  empty [s1; s2; s1] ["s-1"; "s-2"; "s-1"]
                  eq_refl eq_refl eq_refl)).
Defined.

Lemma ingest_non_exception_escapes_witness :
  fst (serve (store_ops := roomy)
         (queue_ops := Faulty.queue_raising Faulty.cancelled)
         (POST_sessions_ingest (Some bearer) (Valid (batch [s1]))) empty)
  = Escaped Faulty.cancelled.
Proof.
  exact (ingest_non_exception_escapes (store_ops := roomy)
           (queue_ops := Faulty.queue_raising Faulty.cancelled)
           bearer key (batch [s1]) empty Faulty.cancelled eq_refl
           (enqueue_raised (store_ops := roomy)
              (queue_ops := Faulty.queue_raising Faulty.cancelled)
              [s1] key empty Faulty.cancelled [] s1 [] [s1] [] []
              eq_refl eq_refl eq_refl eq_refl)
           eq_refl).
Defined.

Lemma ingest_three_outcomes_witness :
  let r := fst (serve (store_ops := roomy) (queue_ops := short_queue)
                  (POST_sessions_ingest (Some bearer) (Valid (batch [s1; s2])))
                  empty) in
  (r = Response 200 (Ingested (received [s1; s2]))
   /\ (exists q', enqueued (queue_ops := short_queue) [s1; s2] [] = Some q'))
  \/ (exists e,
         raised_in_ingest (store_ops := roomy) (queue_ops := short_queue)
           [s1; s2] key empty e
         /\ is_Exception e = true
         /\ r = Response 500 (Detail (str e)))
  \/ (exists e,
         raised_in_ingest (store_ops := roomy) (queue_ops := short_queue)
           [s1; s2] key empty e
         /\ is_Exception e = false
         /\ r = Escaped e).
Proof.
  exact (ingest_three_outcomes (store_ops := roomy) (queue_ops := short_queue)
           bearer key (batch [s1; s2]) empty eq_refl).
Defined.

Lemma ingest_forwards_bearer_token_witness :
  exists tail,
    trace (snd (serve (store_ops := tight) (queue_ops := long_queue)
                  (POST_sessions_ingest (Some "Bearer 0123456789")
                     (Valid (batch [s1; s2]))) empty))
    = [] ++ Called (StoreSessions [s1; s2] "0123456789") :: tail.
Proof.
  apply (ingest_forwards_bearer_token (store_ops := tight)
           (queue_ops := long_queue) "0123456789" (batch [s1; s2]) empty).
  unfold len_str. simpl. lia.
Defined.

Lemma ingest_ignores_timestamp_witness :
  serve (store_ops := roomy) (queue_ops := long_queue)
    (POST_sessions_ingest (Some bearer)
       (Valid {| IngestRequest.sessions := [s1];
                 IngestRequest.timestamp := 0 |})) empty
  = serve (store_ops := roomy) (queue_ops := long_queue)
      (POST_sessions_ingest (Some bearer)
         (Valid {| IngestRequest.sessions := [s1];
                   IngestRequest.timestamp := 1700000000 |})) empty.
Proof.
  exact (ingest_ignores_timestamp (store_ops := roomy)
           (queue_ops := long_queue) (Some bearer)
           {| IngestRequest.sessions := [s1]; IngestRequest.timestamp := 0 |}
           {| IngestRequest.sessions := [s1];
              IngestRequest.timestamp := 1700000000 |}
           empty eq_refl).
Defined.

Lemma get_session_store_failure_escapes_witness :
  serve (store_ops := Faulty.store_raising Faulty.refused)
    (queue_ops := long_queue) (GET_session (Some bearer) "s-1") empty
  = (Escaped Faulty.refused,
     World [] []
       [Called (GetSession "s-1"); Raised (GetSession "s-1") Faulty.refused]).
Proof.
  exact (get_session_store_failure_escapes
           (store_ops := Faulty.store_raising Faulty.refused)
           (queue_ops := long_queue) bearer key "s-1" empty Faulty.refused []
           eq_refl eq_refl).
Defined.

Lemma get_session_falsy_is_404_witness :
  let w := World [("s-1", Faulty.row_of s1); ("s-0", [])]
             ([] : list string) [] in
  fst (serve (store_ops := Faulty.row_store) (queue_ops := long_queue)
         (GET_session (Some bearer) "s-0") w)
  = Response 404 (Detail "Session not found").
Proof.
  intro w.
  exact (get_session_falsy_is_404 (store_ops := Faulty.row_store)
           (queue_ops := long_queue) bearer key "s-0" w []
           [("s-1", Faulty.row_of s1); ("s-0", [])]
           eq_refl eq_refl eq_refl).
Defined.

Lemma list_agent_sessions_store_failure_escapes_witness :
  serve (store_ops := Faulty.store_raising Faulty.refused)
    (queue_ops := long_queue)
    (GET_agent_sessions (Some bearer) "support-bot" None (Some 20)) empty
  = (Escaped Faulty.refused,
     World [] []
       [Called (ListSessions "support-bot" 100 20);
        Raised (ListSessions "support-bot" 100 20) Faulty.refused]).
Proof.
  exact (list_agent_sessions_store_failure_escapes
           (store_ops := Faulty.store_raising Faulty.refused)
           (queue_ops := long_queue) bearer key "support-bot" None (Some 20)
           empty Faulty.refused [] eq_refl eq_refl).
Defined.

Lemma read_routes_leave_queue_witness :
  let w := World [s1] ["s-1"] [] in
  queue_manager
    (snd (serve (store_ops := roomy) (queue_ops := long_queue)
            (GET_session (Some bearer) "s-1") w))
  = ["s-1"].
Proof.
  intro w.
  exact (proj1 (read_routes_leave_queue (store_ops := roomy)
                  (queue_ops := long_queue)
                  (GET_session (Some bearer) "s-1") w eq_refl)).
Defined.

Lemma shutdown_stop_failure_skips_close_witness :
  shutdown_event (store_ops := roomy)
    (queue_ops := Faulty.queue_raising Faulty.refused) empty
  = (Throw (Foreign Faulty.refused),
     World [] []
       [Printed ShuttingDown; Called StopWorkers;
        Raised StopWorkers Faulty.refused]).
Proof.
  exact (shutdown_stop_failure_skips_close (store_ops := roomy)
           (queue_ops := Faulty.queue_raising Faulty.refused)
           empty Faulty.refused [] eq_refl).
Defined.

Lemma shutdown_after_stop_witness :
  shutdown_event (store_ops := Faulty.store_raising Faulty.refused)
    (queue_ops := long_queue) empty
  = (Throw (Foreign Faulty.refused),
     World [] []
       [Printed ShuttingDown; Called StopWorkers; Returned StopWorkers;
        Called Close; Raised Close Faulty.refused]).
Proof.
  exact (shutdown_after_stop
           (store_ops := Faulty.store_raising Faulty.refused)
           (queue_ops := long_queue) empty [] eq_refl).
Defined.

Lemma platform_metrics_in_order_witness :
  serve_open (counters := Monitoring.counters)
    (analyzer_ops := Monitoring.analyzer) GET_metrics
    (Monitoring.start [s1; s2; s3] ["s-3"])
  = (Sent 200
       (Metrics {| sessions_processed := 3;
                   queue_size := 1;
                   active_agents := 2 |}),
     {| singletons :=
          {| session_store := [s1; s2; s3]; queue_manager := ["s-3"];
             trace := [] |};
        session_analyzer := O;
        probes := [Asked CountSessions; Answered CountSessions;
                   Asked GetQueueSize; Answered GetQueueSize;
                   Asked CountActiveAgents; Answered CountActiveAgents] |}).
Proof.
  exact (platform_metrics_in_order (counters := Monitoring.counters)
           (analyzer_ops := Monitoring.analyzer)
           (Monitoring.start [s1; s2; s3] ["s-3"]) 3 1 2
           [s1; s2; s3] [s1; s2; s3] ["s-3"] eq_refl eq_refl eq_refl).
Defined.

Lemma platform_metrics_store_failure_witness :
  serve_open (counters := Monitoring.counters_without_store Faulty.refused)
    (analyzer_ops := Monitoring.analyzer) GET_metrics
    (Monitoring.start [s1] ["s-1"])
  = (Lost Faulty.refused,
     {| singletons :=
          {| session_store := [s1]; queue_manager := ["s-1"]; trace := [] |};
        session_analyzer := O;
        probes := [Asked CountSessions;
                   Failed CountSessions Faulty.refused] |}).
Proof.
  exact (platform_metrics_store_failure
           (counters := Monitoring.counters_without_store Faulty.refused)
           (analyzer_ops := Monitoring.analyzer)
           (Monitoring.start [s1] ["s-1"]) Faulty.refused [s1] eq_refl).
Defined.

Lemma platform_metrics_queue_failure_witness :
  serve_open (counters := Monitoring.counters_without_queue Faulty.refused)
    (analyzer_ops := Monitoring.analyzer) GET_metrics
    (Monitoring.start [s1] ["s-1"])
  = (Lost Faulty.refused,
     {| singletons :=
          {| session_store := [s1]; queue_manager := ["s-1"]; trace := [] |};
        session_analyzer := O;
        probes := [Asked CountSessions; Answered CountSessions;
                   Asked GetQueueSize;
                   Failed GetQueueSize Faulty.refused] |}).
Proof.
  exact (platform_metrics_queue_failure
           (counters := Monitoring.counters_without_queue Faulty.refused)
           (analyzer_ops := Monitoring.analyzer)
           (Monitoring.start [s1] ["s-1"]) Faulty.refused 1 [s1] ["s-1"]
           eq_refl eq_refl).
Defined.

Lemma agent_metrics_pass_through_witness :
  serve_open (counters := Monitoring.counters)
    (analyzer_ops := Monitoring.analyzer)
    (GET_agent_metrics (Some bearer) "support-bot" None)
    (Monitoring.start [] [])
  = (Sent 200
       (AgentMetrics (Monitoring.analysis "metrics" "support-bot" 24)),
     {| singletons :=
          {| session_store := []; queue_manager := []; trace := [] |};
        session_analyzer := 1%nat;
        probes := [Asked (GetAgentMetrics "support-bot" 24);
                   Answered (GetAgentMetrics "support-bot" 24)] |}).
Proof.
  exact (agent_metrics_pass_through (counters := Monitoring.counters)
           (analyzer_ops := Monitoring.analyzer) bearer key "support-bot"
           None (Monitoring.start [] [])
           (Monitoring.analysis "metrics" "support-bot" 24) 1%nat
           eq_refl eq_refl).
Defined.

Lemma agent_regressions_echo_witness :
  serve_open (counters := Monitoring.counters)
    (analyzer_ops := Monitoring.analyzer)
    (GET_agent_regressions (Some bearer) "support-bot" (Some 720))
    (Monitoring.start [] [])
  = (Sent 200
       (Regressions
          {| findings_agent_name := "support-bot";
             time_window_hours := 720;
             findings := Monitoring.analysis "regressions" "support-bot" 720 |}),
     {| singletons :=
          {| session_store := []; queue_manager := []; trace := [] |};
        session_analyzer := 1%nat;
        probes := [Asked (DetectRegressions "support-bot" 720);
                   Answered (DetectRegressions "support-bot" 720)] |}).
Proof.
  exact (agent_regressions_echo (counters := Monitoring.counters)
           (analyzer_ops := Monitoring.analyzer) bearer key "support-bot"
           (Some 720) (Monitoring.start [] [])
           (Monitoring.analysis "regressions" "support-bot" 720) 1%nat
           eq_refl eq_refl).
Defined.

Lemma agent_anomalies_echo_witness :
  serve_open (counters := Monitoring.counters)
    (analyzer_ops := Monitoring.analyzer)
    (GET_agent_anomalies (Some bearer) "support-bot" (Some (-3)))
    (Monitoring.start [] [])
  = (Sent 200
       (Anomalies
          {| findings_agent_name := "support-bot";
             time_window_hours := -3;
             findings := Monitoring.analysis "anomalies" "support-bot" (-3) |}),
     {| singletons :=
          {| session_store := []; queue_manager := []; trace := [] |};
        session_analyzer := 1%nat;
        probes := [Asked (DetectAnomalies "support-bot" (-3));
                   Answered (DetectAnomalies "support-bot" (-3))] |}).
Proof.
  exact (agent_anomalies_echo (counters := Monitoring.counters)
           (analyzer_ops := Monitoring.analyzer) bearer key "support-bot"
           (Some (-3)) (Monitoring.start [] [])
           (Monitoring.analysis "anomalies" "support-bot" (-3)) 1%nat
           eq_refl eq_refl).
Defined.

Lemma analysis_requires_credential_witness :
  let r := GET_agent_anomalies (Some "Basic dXNlcjpwYXNz") "support-bot" None in
  exists detail,
    verify_api_key "Basic dXNlcjpwYXNz" = Throw (HTTPException 401 detail)
    /\ serve_open (counters := Monitoring.counters)
         (analyzer_ops := Monitoring.analyzer) r (Monitoring.start [] [])
       = (Sent 401 (PageDetail detail), Monitoring.start [] []).
Proof.
  intro r.
  refine (proj2 (analysis_requires_credential (counters := Monitoring.counters)
                   (analyzer_ops := Monitoring.analyzer) r
                   (Some "Basic dXNlcjpwYXNz") (Monitoring.start [] [])
                   eq_refl)
            "Basic dXNlcjpwYXNz" eq_refl _).
  intros api_key. discriminate.
Defined.
